(** * Schema derivation for request structs (go-mcp, [protocol/schema_generate.go])

    A shallow embedding of [generateSchemaFromReqStruct], [getTypeUUID],
    [reflectSchemaByObject] and [reflectSchemaByType], together with the
    pieces of the Go library they call ([strings], [strconv], [reflect]),
    and the properties of the derived schema proved about them. *)

From Stdlib Require Import ZArith Ascii String List.
From stdpp Require Import gmap strings list fin_maps.

Set Warnings "-register-all".
Set Default Proof Using "Type".

Open Scope string_scope.
Open Scope list_scope.

(** ** Package [strings] *)

Module strings.

(** [strings.HasSuffix(s, suffix)] *)
Fixpoint HasSuffix (s suffix : string) : bool :=
  if String.eqb s suffix then true
  else match s with
       | EmptyString => false
       | String.String _ s' => HasSuffix s' suffix
       end.

(** [strings.TrimSuffix(s, suffix)]: [s[:len(s)-len(suffix)]] when [s]
    ends in [suffix], else [s]. *)
Definition TrimSuffix (s suffix : string) : string :=
  if HasSuffix s suffix
  then String.substring 0 (String.length s - String.length suffix) s
  else s.

(** [strings.Split(s, sep)] for a separator of one byte (the only use in
    this package is [strings.Split(v, ",")]). *)
Fixpoint Split (s : string) (sep : ascii) : list string :=
  match s with
  | EmptyString => [EmptyString]
  | String.String c s' =>
      if Ascii.eqb c sep then EmptyString :: Split s' sep
      else match Split s' sep with
           | h :: t => String.String c h :: t
           | [] => [String.String c EmptyString]
           end
  end.

(** Bytes of a string, as numbers. *)
Definition bytes (s : string) : list N :=
  List.map N_of_ascii (list_ascii_of_string s).
Definition of_bytes (l : list N) : string :=
  string_of_list_ascii (List.map ascii_of_N l).

(** The one-byte runes of [unicode.IsSpace]: tab, LF, VT, FF, CR, space. *)
Definition asciiSpace (c : N) : bool :=
  ((9 <=? c) && (c <=? 13) || (c =? 32))%N.

(** [trimLeft] drops leading runes of [unicode.IsSpace], read as UTF-8:
    the one-byte ones, U+0085 and U+00A0 (C2 85, C2 A0), U+1680
    (E1 9A 80), U+2000..U+200A, U+2028, U+2029, U+202F (E2 80 xx),
    U+205F (E2 81 9F) and U+3000 (E3 80 80). *)
Fixpoint trimLeft (l : list N) : list N :=
  match l with
  | [] => []
  | c :: l1 =>
      if asciiSpace c then trimLeft l1
      else match l1 with
           | d :: l2 =>
               if ((c =? 194) && ((d =? 133) || (d =? 160)))%N then trimLeft l2
               else match l2 with
                    | e :: l3 =>
                        if ((c =? 225) && (d =? 154) && (e =? 128)
                            || (c =? 226) && (d =? 128)
                               && ((128 <=? e) && (e <=? 138) || (e =? 168)
                                   || (e =? 169) || (e =? 175))
                            || (c =? 226) && (d =? 129) && (e =? 159)
                            || (c =? 227) && (d =? 128) && (e =? 128))%N
                        then trimLeft l3 else l
                    | [] => l
                    end
           | [] => l
           end
  end.

(** The same from the end of the string, on the reversed bytes: the last
    byte of a rune comes first. *)
Fixpoint trimLeftRev (l : list N) : list N :=
  match l with
  | [] => []
  | e :: l1 =>
      if asciiSpace e then trimLeftRev l1
      else match l1 with
           | d :: l2 =>
               if ((d =? 194) && ((e =? 133) || (e =? 160)))%N then trimLeftRev l2
               else match l2 with
                    | c :: l3 =>
                        if ((c =? 225) && (d =? 154) && (e =? 128)
                            || (c =? 226) && (d =? 128)
                               && ((128 <=? e) && (e <=? 138) || (e =? 168)
                                   || (e =? 169) || (e =? 175))
                            || (c =? 226) && (d =? 129) && (e =? 159)
                            || (c =? 227) && (d =? 128) && (e =? 128))%N
                        then trimLeftRev l3 else l
                    | [] => l
                    end
           | [] => l
           end
  end.

(** [strings.TrimSpace(s)] *)
Definition TrimSpace (s : string) : string :=
  of_bytes (List.rev (trimLeftRev (List.rev (trimLeft (bytes s))))).

End strings.

(** ** Package [strconv] *)

Module strconv.

(** [strconv.ParseBool(str)]: the twelve accepted literals. *)
Definition ParseBool (str : string) : option bool :=
  if existsb (String.eqb str) ["1"; "t"; "T"; "TRUE"; "true"; "True"]
  then Some true
  else if existsb (String.eqb str) ["0"; "f"; "F"; "FALSE"; "false"; "False"]
  then Some false
  else None.

(** Base-10 digits, most significant first; [None] on any other byte. *)
Fixpoint digits (s : string) (n : Z) : option Z :=
  match s with
  | EmptyString => Some n
  | String.String ch s' =>
      let d := (Z.of_N (N_of_ascii ch) - 48)%Z in
      if ((0 <=? d) && (d <=? 9))%Z then digits s' (n * 10 + d)%Z else None
  end.

(** [strconv.ParseUint(s, 10, 64)]: one or more digits, no sign, value
    below 2^64. *)
Definition ParseUint (s : string) : option Z :=
  match s with
  | EmptyString => None
  | _ => match digits s 0 with
         | Some n => if (n <? 2 ^ 64)%Z then Some n else None
         | None => None
         end
  end.

(** [strconv.Atoi(s)] with a 64-bit [int]: an optional sign, one or more
    digits, value in [-2^63, 2^63). *)
Definition Atoi (s : string) : option Z :=
  match s with
  | EmptyString => None
  | String.String c s' =>
      let neg := Ascii.eqb c "-" in
      let body := if neg || Ascii.eqb c "+" then s' else s in
      match body with
      | EmptyString => None
      | _ => match digits body 0 with
             | Some n =>
                 let v := if neg then (- n)%Z else n in
                 if ((- 2 ^ 63 <=? v) && (v <? 2 ^ 63))%Z then Some v else None
             | None => None
             end
      end
  end.

(** A [float64], as its IEEE 754 bit pattern. *)
Definition float64 : Type := Z.

End strconv.

(** ** Package [reflect] *)

Module reflect.

(** [reflect.Kind] *)
Inductive Kind : Set :=
| Invalid | Bool
| Int | Int8 | Int16 | Int32 | Int64
| Uint | Uint8 | Uint16 | Uint32 | Uint64 | Uintptr
| Float32 | Float64 | Complex64 | Complex128
| Array | Chan | Func | Interface | Map | Pointer | Slice
| String | Struct | UnsafePointer.

(** Integer widths: [int], [int8], [int16], [int32], [int64]. *)
Inductive width : Set := W | W8 | W16 | W32 | W64.

(** [reflect.StructTag], already split into its [key:"value"] pairs, in
    the order they are written. *)
Definition StructTag : Type := list (string * string).

(** [reflect.Type]: the types a struct field can have.  What lies under
    a channel, function or interface type is never inspected and is
    left out.  A struct type carries its package path, its name and its
    [String()] form.  A type here is a finite tree: a struct type that
    reaches itself through its fields (as [type N struct { Next *N }]
    does), on which the code recurses without end, has no value of this
    type. *)
Inductive type : Type :=
| TBool
| TInt (w : width)
| TUint (w : width)
| TUintptr
| TFloat32 | TFloat64
| TComplex64 | TComplex128
| TString
| TUnsafePointer
| TChan | TFunc | TInterface
| TArray (len : nat) (elem : type)
| TSlice (elem : type)
| TPtr (elem : type)
| TMap (key elem : type)
| TStruct (pkgPath name str : string) (fields : list StructField)
(** [reflect.StructField] *)
with StructField : Type :=
| mkStructField (Name PkgPath : string) (Type_ : type) (Tag : StructTag)
                (Anonymous : bool).

Definition Name (f : StructField) : string :=
  let 'mkStructField n _ _ _ _ := f in n.
Definition PkgPath (f : StructField) : string :=
  let 'mkStructField _ p _ _ _ := f in p.
Definition Type_ (f : StructField) : type :=
  let 'mkStructField _ _ t _ _ := f in t.
Definition Tag (f : StructField) : StructTag :=
  let 'mkStructField _ _ _ g _ := f in g.
Definition Anonymous (f : StructField) : bool :=
  let 'mkStructField _ _ _ _ a := f in a.

(** [t.Kind()] *)
Definition KindOf (t : type) : Kind :=
  match t with
  | TBool => Bool
  | TInt W => Int | TInt W8 => Int8 | TInt W16 => Int16
  | TInt W32 => Int32 | TInt W64 => Int64
  | TUint W => Uint | TUint W8 => Uint8 | TUint W16 => Uint16
  | TUint W32 => Uint32 | TUint W64 => Uint64
  | TUintptr => Uintptr
  | TFloat32 => Float32 | TFloat64 => Float64
  | TComplex64 => Complex64 | TComplex128 => Complex128
  | TString => String
  | TUnsafePointer => UnsafePointer
  | TChan => Chan | TFunc => Func | TInterface => Interface
  | TArray _ _ => Array
  | TSlice _ => Slice
  | TPtr _ => Pointer
  | TMap _ _ => Map
  | TStruct _ _ _ _ => Struct
  end.

(** [t.PkgPath()], [t.Name()] and [t.String()]; they are only asked of
    struct types here and are not recorded for the other types. *)
Definition TypePkgPath (t : type) : string :=
  match t with TStruct p _ _ _ => p | _ => "" end.
Definition TypeName (t : type) : string :=
  match t with TStruct _ n _ _ => n | _ => "" end.
Definition TypeString (t : type) : string :=
  match t with TStruct _ _ s _ => s | _ => "" end.

(** [f.IsExported()]: the package path of an exported field is empty. *)
Definition IsExported (f : StructField) : bool := String.eqb (PkgPath f) "".

(** [tag.Get(key)]: the value of the first pair with that key, or the
    empty string. *)
Fixpoint Get (tag : StructTag) (key : string) : string :=
  match tag with
  | [] => ""
  | (k, v) :: tag' => if String.eqb k key then v else Get tag' key
  end.

Global Instance Kind_eq_dec : EqDecision Kind.
Proof. solve_decision. Defined.

(** Induction on types that reaches the types of a struct's fields. *)
Section type_induction.
Variable P : type → Prop.
Hypothesis HBool : P TBool.
Hypothesis HInt : ∀ w, P (TInt w).
Hypothesis HUint : ∀ w, P (TUint w).
Hypothesis HUintptr : P TUintptr.
Hypothesis HFloat32 : P TFloat32.
Hypothesis HFloat64 : P TFloat64.
Hypothesis HComplex64 : P TComplex64.
Hypothesis HComplex128 : P TComplex128.
Hypothesis HString : P TString.
Hypothesis HUnsafePointer : P TUnsafePointer.
Hypothesis HChan : P TChan.
Hypothesis HFunc : P TFunc.
Hypothesis HInterface : P TInterface.
Hypothesis HArray : ∀ n e, P e → P (TArray n e).
Hypothesis HSlice : ∀ e, P e → P (TSlice e).
Hypothesis HPtr : ∀ e, P e → P (TPtr e).
Hypothesis HMap : ∀ k e, P k → P e → P (TMap k e).
Hypothesis HStruct : ∀ p n s fields,
  Forall (λ f, P (Type_ f)) fields → P (TStruct p n s fields).

Fixpoint type_fields_ind (t : type) : P t :=
  match t with
  | TBool => HBool
  | TInt w => HInt w
  | TUint w => HUint w
  | TUintptr => HUintptr
  | TFloat32 => HFloat32
  | TFloat64 => HFloat64
  | TComplex64 => HComplex64
  | TComplex128 => HComplex128
  | TString => HString
  | TUnsafePointer => HUnsafePointer
  | TChan => HChan
  | TFunc => HFunc
  | TInterface => HInterface
  | TArray n e => HArray n e (type_fields_ind e)
  | TSlice e => HSlice e (type_fields_ind e)
  | TPtr e => HPtr e (type_fields_ind e)
  | TMap k e => HMap k e (type_fields_ind k) (type_fields_ind e)
  | TStruct p n s fields =>
      HStruct p n s fields
        ((fix go (fs : list StructField) : Forall (λ f, P (Type_ f)) fs :=
            match fs with
            | [] => @List.Forall_nil _ (λ f, P (Type_ f))
            | f :: fs' =>
                @List.Forall_cons _ (λ f, P (Type_ f)) f fs'
                  (match f return P (Type_ f) with
                   | mkStructField _ _ t' _ _ => type_fields_ind t'
                   end)
                  (go fs')
            end) fields)
  end.
End type_induction.

End reflect.

(** ** Package [pkg] *)

Module pkg.

(** Modelled from the spec: [pkg.SyncMap], the process-wide cache of §4.2,
    whose declaration is not part of the sources at hand.  [Load] is the
    spec's [lookup(key) -> Option<Schema>] and [Store] its
    [store(key, schema)]; a later [Store] under the same key wins. *)
Definition SyncMap (V : Type) : Type := gmap string V.
Definition Load {V} (m : SyncMap V) (key : string) : option V := m !! key.
Definition Store {V} (m : SyncMap V) (key : string) (value : V) : SyncMap V :=
  <[key := value]> m.

End pkg.

(** ** Package [protocol]: the schema data model *)

(** [DataType] *)
Inductive DataType : Set :=
| ObjectT | Number | Integer | String | Array | Null | Boolean.

(** A value of interface type [any], as stored in [Enum] and [Default]:
    [nil], or one of the values the tag conversions produce
    ([string], [int], [uint64], [float64], [bool]). *)
Inductive any : Type :=
| Nil
| AString (s : string)
| AInt (n : Z)
| AUint64 (n : Z)
| AFloat64 (f : strconv.float64)
| ABool (b : bool).

(** [Property].  A [nil] pointer, map or slice is [None]; an empty but
    allocated map or slice is [Some ∅] or [Some []]. *)
Inductive Property : Type := mkProperty {
  Type_ : DataType;
  Description : string;
  Items : option Property;
  Properties : option (gmap string Property);
  Required : option (list string);
  Enum : option (list any);
  Default : any
}.

(** [&Property{Type: ty}] *)
Definition newProperty (ty : DataType) : Property :=
  mkProperty ty "" None None None None Nil.

(** Assignments to one field of a [Property]. *)
Definition setType (p : Property) (ty : DataType) : Property :=
  mkProperty ty (Description p) (Items p) (Properties p) (Required p) (Enum p) (Default p).
Definition setDescription (p : Property) (d : string) : Property :=
  mkProperty (Type_ p) d (Items p) (Properties p) (Required p) (Enum p) (Default p).
Definition setItems (p : Property) (items : Property) : Property :=
  mkProperty (Type_ p) (Description p) (Some items) (Properties p) (Required p) (Enum p) (Default p).
Definition setEnum (p : Property) (e : list any) : Property :=
  mkProperty (Type_ p) (Description p) (Items p) (Properties p) (Required p) (Some e) (Default p).
Definition setDefault (p : Property) (d : any) : Property :=
  mkProperty (Type_ p) (Description p) (Items p) (Properties p) (Required p) (Enum p) d.

(** Modelled from the spec: [InputSchema], the Root Schema of §3, whose
    declaration is not part of the sources at hand: always of kind object,
    holding only the properties and the required list. *)
Inductive InputSchemaType : Set := Object.
Record InputSchema : Type := mkInputSchema {
  SchemaType : InputSchemaType;
  SchemaProperties : option (gmap string Property);
  SchemaRequired : option (list string)
}.

(** ** Errors and panics *)

(** What an enum or default literal failed to convert to, as the message
    words it. *)
Inductive target : Set :=
| integer_type | unsigned_integer_type | float_type | boolean_type.

(** The errors built with [fmt.Errorf], with the values their messages
    print. *)
Inductive error : Type :=
| InvalidType (t : reflect.type)
    (* "invalid type %v" *)
| InvalidRequired (jsonTag s : string)
    (* "invalid required field %v: %v", with the ParseBool error on s *)
| EnumIncompatible (value : string) (k : target) (t : reflect.type)
    (* "enum value %q is not compatible with ... type %v" *)
| EnumUnsupported (t : reflect.type)
    (* "unsupported type %v for enum validation" *)
| DefaultIncompatible (value : string) (k : target) (t : reflect.type)
    (* "default value %q is not compatible with ... type %v" *)
| DuplicateProperty (propName : string)
    (* "duplicate property name %s in anonymous struct" *)
| UnsupportedMapKey (k : reflect.Kind)
    (* "map key type %s is not supported" *)
| UnsupportedKind (k : reflect.Kind).
    (* "unsupported type: %s" *)

(** The run-time panics the code can reach. *)
Inductive panic : Type :=
| NumFieldOfNonStruct (t : reflect.type)
    (* t.NumField() on a type that is not a struct *)
| NilType.
    (* t.Kind() on the nil Type that reflect.TypeOf(nil) returns *)

(** The outcome of a call that returns [(x, error)]. *)
Inductive result (A : Type) : Type :=
| Ok (a : A)
| Err (e : error)
| Panic (p : panic).
Arguments Ok {A} a.
Arguments Err {A} e.
Arguments Panic {A} p.

Global Instance result_ret : MRet result := λ A a, Ok a.
Global Instance result_bind : MBind result := λ A B f m,
  match m with
  | Ok a => f a
  | Err e => Err e
  | Panic p => Panic p
  end.

(** [x, err := conv(s); if err != nil { return nil, e }] *)
Definition orErr {A} (o : option A) (e : error) : result A :=
  match o with Some a => Ok a | None => Err e end.

(** A struct field together with the results of the two recursive calls
    the field loops make on its type: [reflectSchemaByType(field.Type)]
    for an explicit field, [reflectSchemaByObject(field.Type)] for an
    anonymous one. *)
Record Reflected : Type := mkReflected {
  field : reflect.StructField;
  byType : result Property;
  byObject : result Property
}.

(** ** Package [protocol]: schema derivation *)

Section protocol.

(** [strconv.ParseFloat(s, 64)] belongs to the Go library; the
    derivation only asks whether it fails and stores what it returns, so
    it is a parameter of the development. *)
Variable ParseFloat : string → option strconv.float64.

(** The body of [for j, value := range enumStrings]: one literal of an
    [enum] tag, converted by the kind of the field's type. *)
Definition enumValue (t : reflect.type) (value : string) : result any :=
  let value := strings.TrimSpace value in
  match reflect.KindOf t with
  | reflect.String => Ok (AString value)
  | reflect.Int | reflect.Int8 | reflect.Int16 | reflect.Int32 | reflect.Int64 =>
      intVal ← orErr (strconv.Atoi value) (EnumIncompatible value integer_type t);
      Ok (AInt intVal)
  | reflect.Uint | reflect.Uint8 | reflect.Uint16 | reflect.Uint32 | reflect.Uint64 =>
      uintVal ← orErr (strconv.ParseUint value)
                      (EnumIncompatible value unsigned_integer_type t);
      Ok (AUint64 uintVal)
  | reflect.Float32 | reflect.Float64 =>
      floatVal ← orErr (ParseFloat value) (EnumIncompatible value float_type t);
      Ok (AFloat64 floatVal)
  | reflect.Bool =>
      boolVal ← orErr (strconv.ParseBool value) (EnumIncompatible value boolean_type t);
      Ok (ABool boolVal)
  | _ => Err (EnumUnsupported t)
  end.

(** The loop itself: [enumValues[j] = ...] for each [j], leaving at the
    first literal that fails. *)
Fixpoint enumLoop (t : reflect.type) (j : nat) (enumStrings : list string)
         (enumValues : list any) : result (list any) :=
  match enumStrings with
  | [] => Ok enumValues
  | value :: rest =>
      x ← enumValue t value;
      enumLoop t (S j) rest (<[j := x]> enumValues)
  end.

(** [if v := field.Tag.Get("enum"); v != "" { ... item.Enum = enumValues }] *)
Definition enumTag (t : reflect.type) (v : string) (item : Property) : result Property :=
  if String.eqb v "" then Ok item
  else
    let enumStrings := strings.Split v "," in
    let enumValues := replicate (length enumStrings) Nil in
    enumValues ← enumLoop t 0 enumStrings enumValues;
    Ok (setEnum item enumValues).

(** The switch on the kind of the field's type for a [default] tag. *)
Definition defaultValueOf (t : reflect.type) (defaultValue : string) : result any :=
  match reflect.KindOf t with
  | reflect.String => Ok (AString defaultValue)
  | reflect.Int | reflect.Int8 | reflect.Int16 | reflect.Int32 | reflect.Int64 =>
      intVal ← orErr (strconv.Atoi defaultValue)
                     (DefaultIncompatible defaultValue integer_type t);
      Ok (AInt intVal)
  | reflect.Uint | reflect.Uint8 | reflect.Uint16 | reflect.Uint32 | reflect.Uint64 =>
      uintVal ← orErr (strconv.ParseUint defaultValue)
                      (DefaultIncompatible defaultValue unsigned_integer_type t);
      Ok (AUint64 uintVal)
  | reflect.Float32 | reflect.Float64 =>
      floatVal ← orErr (ParseFloat defaultValue)
                       (DefaultIncompatible defaultValue float_type t);
      Ok (AFloat64 floatVal)
  | reflect.Bool =>
      boolVal ← orErr (strconv.ParseBool defaultValue)
                      (DefaultIncompatible defaultValue boolean_type t);
      Ok (ABool boolVal)
  | _ =>
      (* For complex types (arrays, objects), keep as string *)
      Ok (AString defaultValue)
  end.

(** [if defaultValue := field.Tag.Get("default"); defaultValue != "" { ... }] *)
Definition defaultTag (t : reflect.type) (defaultValue : string) (item : Property)
  : result Property :=
  if String.eqb defaultValue "" then Ok item
  else d ← defaultValueOf t defaultValue; Ok (setDefault item d).

(** The name and the computed requiredness of a field whose [json] tag
    is [jsonTag] (lines 99-106). *)
Definition fieldName (f : reflect.StructField) (jsonTag : string) : string * bool :=
  let required := true in
  let jsonTag := if String.eqb jsonTag "" then reflect.Name f else jsonTag in
  if strings.HasSuffix jsonTag ",omitempty"
  then (strings.TrimSuffix jsonTag ",omitempty", false)
  else (jsonTag, required).

(** [if s := field.Tag.Get("required"); s != "" { required, err = strconv.ParseBool(s) ... }] *)
Definition requiredTag (jsonTag s : string) (required : bool) : result bool :=
  if String.eqb s "" then Ok required
  else orErr (strconv.ParseBool s) (InvalidRequired jsonTag s).

(** The rest of the first loop's body for an explicit, exported field
    that is not excluded (lines 99-205).  [properties[jsonTag]] holds the
    pointer [item], so the later writes to [item.Enum] and
    [item.Default] show in the map: the entry is what [item] is when the
    iteration ends. *)
Definition reflectField (rf : Reflected) (jsonTag : string)
           (properties : gmap string Property) (requiredFields : list string)
  : result (gmap string Property * list string) :=
  let f := field rf in
  let '(jsonTag, required) := fieldName f jsonTag in
  item ← byType rf;
  let description := reflect.Get (reflect.Tag f) "description" in
  let item := if String.eqb description "" then item
              else setDescription item description in
  required ← requiredTag jsonTag (reflect.Get (reflect.Tag f) "required") required;
  let requiredFields :=
    if required : bool then requiredFields ++ [jsonTag] else requiredFields in
  item ← enumTag (reflect.Type_ f) (reflect.Get (reflect.Tag f) "enum") item;
  item ← defaultTag (reflect.Type_ f) (reflect.Get (reflect.Tag f) "default") item;
  Ok (<[jsonTag := item]> properties, requiredFields).

(** [for i := 0; i < t.NumField(); i++ { ... }] *)
Fixpoint fieldsLoop (fields : list Reflected)
         (properties : gmap string Property) (requiredFields : list string)
         (anonymousFields : list Reflected)
  : result (gmap string Property * list string * list Reflected) :=
  match fields with
  | [] => Ok (properties, requiredFields, anonymousFields)
  | rf :: fields' =>
      if reflect.Anonymous (field rf)
      then fieldsLoop fields' properties requiredFields (anonymousFields ++ [rf])
      else if negb (reflect.IsExported (field rf))
      then fieldsLoop fields' properties requiredFields anonymousFields
      else
        let jsonTag := reflect.Get (reflect.Tag (field rf)) "json" in
        if String.eqb jsonTag "-"
        then fieldsLoop fields' properties requiredFields anonymousFields
        else
          '(properties, requiredFields) ←
            reflectField rf jsonTag properties requiredFields;
          fieldsLoop fields' properties requiredFields anonymousFields
  end.

(** [for propName, propValue := range object.Properties { ... }], over
    the entries of the map in the order [entries] lists them. *)
Fixpoint mergeLoop (entries : list (string * Property))
         (properties : gmap string Property) : result (gmap string Property) :=
  match entries with
  | [] => Ok properties
  | (propName, propValue) :: rest =>
      match properties !! propName with
      | Some _ => Err (DuplicateProperty propName)
      | None => mergeLoop rest (<[propName := propValue]> properties)
      end
  end.

(** Go leaves the order of a [range] over a map open; the model takes
    the order of [map_to_list].  Ranging over a [nil] map does nothing,
    and so does appending a [nil] slice. *)
Definition rangeOf (m : option (gmap string Property)) : list (string * Property) :=
  match m with Some m => map_to_list m | None => [] end.

(** [for _, field := range anonymousFields { ... }] *)
Fixpoint anonymousLoop (anonymousFields : list Reflected)
         (properties : gmap string Property) (requiredFields : list string)
  : result (gmap string Property * list string) :=
  match anonymousFields with
  | [] => Ok (properties, requiredFields)
  | rf :: rest =>
      object ← byObject rf;
      properties ← mergeLoop (rangeOf (Properties object)) properties;
      anonymousLoop rest properties
                    (requiredFields ++ default [] (Required object))
  end.

(** The body of [reflectSchemaByObject] on the fields of a struct. *)
Definition objectOf (fields : list Reflected) : result Property :=
  '(properties, requiredFields, anonymousFields) ← fieldsLoop fields ∅ [] [];
  '(properties, requiredFields) ←
    anonymousLoop anonymousFields properties requiredFields;
  Ok (mkProperty ObjectT "" None (Some properties) (Some requiredFields) None Nil).

(** [reflectSchemaByType] and [reflectSchemaByObject].  The struct case
    of [reflectSchemaByType] calls [reflectSchemaByObject(t)] on the same
    [t]; it is written out here and [reflectSchemaByType_Struct] below
    states it as the call. *)
Fixpoint reflectSchemaByType (t : reflect.type) : result Property :=
  match t with
  | reflect.TString => Ok (newProperty String)
  | reflect.TInt _ | reflect.TUint _ => Ok (newProperty Integer)
  | reflect.TFloat32 | reflect.TFloat64 => Ok (newProperty Number)
  | reflect.TBool => Ok (newProperty Boolean)
  | reflect.TSlice elem | reflect.TArray _ elem =>
      items ← reflectSchemaByType elem;
      Ok (setItems (newProperty Array) items)
  | reflect.TStruct _ _ _ fields =>
      object ← objectOf
        (List.map (λ f, mkReflected f (reflectSchemaByType (reflect.Type_ f))
                                      (reflectSchemaByObject (reflect.Type_ f)))
                  fields);
      Ok (setType object ObjectT)
  | reflect.TMap key _ =>
      if decide (reflect.KindOf key ≠ reflect.String)
      then Err (UnsupportedMapKey (reflect.KindOf key))
      else Ok (newProperty ObjectT)
  | reflect.TPtr elem => reflectSchemaByType elem
  | reflect.TUintptr | reflect.TComplex64 | reflect.TComplex128
  | reflect.TChan | reflect.TFunc | reflect.TInterface
  | reflect.TUnsafePointer =>
      Err (UnsupportedKind (reflect.KindOf t))
  end
with reflectSchemaByObject (t : reflect.type) : result Property :=
  match t with
  | reflect.TStruct _ _ _ fields =>
      objectOf
        (List.map (λ f, mkReflected f (reflectSchemaByType (reflect.Type_ f))
                                      (reflectSchemaByObject (reflect.Type_ f)))
                  fields)
  | _ => Panic (NumFieldOfNonStruct t)
  end.

(** The fields of a struct with the recursive calls on their types. *)
Definition reflected (fields : list reflect.StructField) : list Reflected :=
  List.map (λ f, mkReflected f (reflectSchemaByType (reflect.Type_ f))
                               (reflectSchemaByObject (reflect.Type_ f)))
           fields.

(** [getTypeUUID] *)
Definition getTypeUUID (t : reflect.type) : string :=
  if negb (String.eqb (reflect.TypePkgPath t) "")
     && negb (String.eqb (reflect.TypeName t) "")
  then (reflect.TypePkgPath t ++ "." ++ reflect.TypeName t)%string
  else
    (* fallback for unnamed types (like anonymous struct) *)
    reflect.TypeString t.

(** [for t.Kind() != reflect.Struct { ... t = t.Elem() }] *)
Fixpoint resolveStruct (t : reflect.type) : result reflect.type :=
  match t with
  | reflect.TStruct _ _ _ _ => Ok t
  | reflect.TPtr elem => resolveStruct elem
  | _ => Err (InvalidType t)
  end.

(** [generateSchemaFromReqStruct], with the package variable
    [schemaCache] passed in and out.  [v] is the dynamic type of the
    argument, [None] for a [nil] interface value. *)
Definition generateSchemaFromReqStruct
           (v : option reflect.type) (schemaCache : pkg.SyncMap InputSchema)
  : result InputSchema * pkg.SyncMap InputSchema :=
  match v with
  | None => (Panic NilType, schemaCache)
  | Some t =>
      match resolveStruct t with
      | Ok t =>
          let typeUID := getTypeUUID t in
          match pkg.Load schemaCache typeUID with
          | Some schema => (Ok schema, schemaCache)
          | None =>
              match reflectSchemaByObject t with
              | Ok property =>
                  let schema :=
                    mkInputSchema Object (Properties property) (Required property) in
                  (Ok schema, pkg.Store schemaCache typeUID schema)
              | Err e => (Err e, schemaCache)
              | Panic p => (Panic p, schemaCache)
              end
          end
      | Err e => (Err e, schemaCache)
      | Panic p => (Panic p, schemaCache)
      end
  end.

End protocol.

(** ** The specification's vocabulary *)

(** The kinds with a conversion rule for [enum] and [default] literals:
    string, the signed and unsigned integer widths, the float widths and
    boolean. *)
Definition primitive (k : reflect.Kind) : bool :=
  match k with
  | reflect.String
  | reflect.Int | reflect.Int8 | reflect.Int16 | reflect.Int32 | reflect.Int64
  | reflect.Uint | reflect.Uint8 | reflect.Uint16 | reflect.Uint32 | reflect.Uint64
  | reflect.Float32 | reflect.Float64
  | reflect.Bool => true
  | _ => false
  end.

(** The word an error message uses for the kind a literal failed to
    convert to. *)
Definition targetOf (k : reflect.Kind) : target :=
  match k with
  | reflect.Uint | reflect.Uint8 | reflect.Uint16 | reflect.Uint32 | reflect.Uint64 =>
      unsigned_integer_type
  | reflect.Float32 | reflect.Float64 => float_type
  | reflect.Bool => boolean_type
  | _ => integer_type
  end.

(** A field is explicit when the first loop reflects it: not anonymous,
    exported, and not excluded with [json:"-"]. *)
Definition explicit (f : reflect.StructField) : bool :=
  negb (reflect.Anonymous f) && reflect.IsExported f
  && negb (String.eqb (reflect.Get (reflect.Tag f) "json") "-").

(** The naming tag of a field: its [json] tag, or its declared name when
    there is none. *)
Definition namingTag (f : reflect.StructField) : string :=
  let jsonTag := reflect.Get (reflect.Tag f) "json" in
  if String.eqb jsonTag "" then reflect.Name f else jsonTag.

(** The external name of a field: the naming tag without a trailing
    [,omitempty]. *)
Definition externalName (f : reflect.StructField) : string :=
  strings.TrimSuffix (namingTag f) ",omitempty".

(** Requiredness as the specification words it: required by default, not
    required when the naming tag ends in [,omitempty], and a non-empty
    [required] tag overrides either with its boolean literal; [None] when
    that literal is malformed. *)
Definition requiredness (f : reflect.StructField) : option bool :=
  let s := reflect.Get (reflect.Tag f) "required" in
  if String.eqb s "" then Some (negb (strings.HasSuffix (namingTag f) ",omitempty"))
  else strconv.ParseBool s.

(** What an explicit field adds to the required list. *)
Definition requiredEntry (f : reflect.StructField) : list string :=
  if explicit f
  then match requiredness f with
       | Some true => [externalName f]
       | _ => []
       end
  else [].

(** [q] is a node of the schema tree under [p]: [p] itself, or a node
    under its items, or a node under one of its properties. *)
Inductive node : Property → Property → Prop :=
| node_here p : node p p
| node_items p items q :
    Items p = Some items → node items q → node p q
| node_property p m name c q :
    Properties p = Some m → m !! name = Some c → node c q → node p q.


(** Every name of the required list is a name of a property. *)
Definition namesDeclared (properties : gmap string Property)
           (requiredFields : list string) : Prop :=
  ∀ name, name ∈ requiredFields → is_Some (properties !! name).






Section specification.

Variable ParseFloat : string → option strconv.float64.

(** The per-kind conversion rules of the specification: string kept,
    signed kinds parsed base 10, unsigned kinds parsed base 10 unsigned,
    float kinds parsed as floating point, boolean parsed as a boolean
    literal; no rule for the other kinds. *)
Definition convert (k : reflect.Kind) (literal : string) : option any :=
  match k with
  | reflect.String => Some (AString literal)
  | reflect.Int | reflect.Int8 | reflect.Int16 | reflect.Int32 | reflect.Int64 =>
      AInt <$> strconv.Atoi literal
  | reflect.Uint | reflect.Uint8 | reflect.Uint16 | reflect.Uint32 | reflect.Uint64 =>
      AUint64 <$> strconv.ParseUint literal
  | reflect.Float32 | reflect.Float64 => AFloat64 <$> ParseFloat literal
  | reflect.Bool => ABool <$> strconv.ParseBool literal
  | _ => None
  end.

(** Merging the properties [m] of an embedded type into [properties]:
    the first name of [m] already present is a duplicate, otherwise the
    union. *)
Definition mergeEmbedded (m properties : gmap string Property)
  : result (gmap string Property) :=
  match List.find (λ e, bool_decide (is_Some (properties !! e.1))) (map_to_list m) with
  | Some e => Err (DuplicateProperty e.1)
  | None => Ok (m ∪ properties)
  end.

(** One embedded field, as the specification words it: reflect its type
    as an object, merge the properties, append the names required in the
    embedded type. *)
Definition embedOne (f : reflect.StructField)
           (st : gmap string Property * list string)
  : result (gmap string Property * list string) :=
  object ← reflectSchemaByObject ParseFloat (reflect.Type_ f);
  properties ← mergeEmbedded (default ∅ (Properties object)) st.1;
  Ok (properties, st.2 ++ default [] (Required object)).

(** The embedded fields, in the order given. *)
Fixpoint embedAll (embedded : list reflect.StructField)
         (st : gmap string Property * list string)
  : result (gmap string Property * list string) :=
  match embedded with
  | [] => Ok st
  | f :: rest => st' ← embedOne f st; embedAll rest st'
  end.

End specification.

(** A parser that accepts nothing, to run the derivation on inputs that
    carry no float literal. *)
Definition noFloat : string → option strconv.float64 := λ _, None.

(** The types used in the examples. *)
Module examples.

Definition exported (name : string) (t : reflect.type) (tag : reflect.StructTag)
  : reflect.StructField :=
  reflect.mkStructField name "" t tag false.

(** [type inner struct { A string; B int `json:"b,omitempty"` }] *)
Definition inner : reflect.type :=
  reflect.TStruct "main" "inner" "main.inner"
    [exported "A" reflect.TString [];
     exported "B" (reflect.TInt reflect.W) [("json", "b,omitempty")]].

(** The schema of [inner]. *)
Definition innerSchema : Property :=
  mkProperty ObjectT "" None
    (Some (<["A" := newProperty String]> (<["b" := newProperty Integer]> ∅)))
    (Some ["A"]) None Nil.

(** [type Outer struct { inner }]: the embedded field is not exported. *)
Definition Outer : reflect.type :=
  reflect.TStruct "main" "Outer" "main.Outer"
    [reflect.mkStructField "inner" "main" inner [] true].

(** [type Hidden struct { c chan int; N int }] *)
Definition Hidden : reflect.type :=
  reflect.TStruct "main" "Hidden" "main.Hidden"
    [reflect.mkStructField "c" "main" reflect.TChan [] false;
     exported "N" (reflect.TInt reflect.W) []].

(** [type Clash struct { A string `json:"x"`; B int `json:"x"` }] *)
Definition Clash : reflect.type :=
  reflect.TStruct "main" "Clash" "main.Clash"
    [exported "A" reflect.TString [("json", "x")];
     exported "B" (reflect.TInt reflect.W) [("json", "x")]].

(** [type Both struct { A int; inner }] *)
Definition Both : reflect.type :=
  reflect.TStruct "main" "Both" "main.Both"
    [exported "A" (reflect.TInt reflect.W) [];
     reflect.mkStructField "inner" "main" inner [] true].

(** [type Open struct { M map[string]int `default:"{}"` }] *)
Definition Open : reflect.type :=
  reflect.TStruct "main" "Open" "main.Open"
    [exported "M" (reflect.TMap reflect.TString (reflect.TInt reflect.W))
              [("default", "{}")]].


(** [type Level struct { L int8 `enum:"1, 2,3" default:"2" required:"false"` }] *)
Definition Level : reflect.type :=
  reflect.TStruct "main" "Level" "main.Level"
    [exported "L" (reflect.TInt reflect.W8)
              [("enum", "1, 2,3"); ("default", "2"); ("required", "false")]].

(** [type BadLevel struct { L int `enum:"1,x,3"` }] *)
Definition BadLevel : reflect.type :=
  reflect.TStruct "main" "BadLevel" "main.BadLevel"
    [exported "L" (reflect.TInt reflect.W) [("enum", "1,x,3")]].

(** [type Opt struct { S *string `enum:"a,b"` }] *)
Definition Opt : reflect.type :=
  reflect.TStruct "main" "Opt" "main.Opt"
    [exported "S" (reflect.TPtr reflect.TString) [("enum", "a,b")]].

(** [type Bad struct { F func() }] *)
Definition Bad : reflect.type :=
  reflect.TStruct "main" "Bad" "main.Bad" [exported "F" reflect.TFunc []].

End examples.

(** ** Further vocabulary *)

(** The schema kind of a primitive Go kind. *)
Definition kindType (k : reflect.Kind) : DataType :=
  match k with
  | reflect.String => String
  | reflect.Int | reflect.Int8 | reflect.Int16 | reflect.Int32 | reflect.Int64
  | reflect.Uint | reflect.Uint8 | reflect.Uint16 | reflect.Uint32 | reflect.Uint64 =>
      Integer
  | reflect.Float32 | reflect.Float64 => Number
  | reflect.Bool => Boolean
  | _ => Null
  end.

(** A converted literal fits a schema kind: a string under string, an
    [int] or [uint64] within its range under integer, a [float64] under
    number, a [bool] under boolean. *)
Definition valueOfKind (ty : DataType) (v : any) : Prop :=
  match ty, v with
  | String, AString _ => True
  | Integer, AInt n => (- 2 ^ 63 ≤ n < 2 ^ 63)%Z
  | Integer, AUint64 n => (0 ≤ n < 2 ^ 64)%Z
  | Number, AFloat64 _ => True
  | Boolean, ABool _ => True
  | _, _ => False
  end.

(** What a node carries for its kind: an array its items and nothing
    else, a primitive neither items nor properties nor a required list,
    an object no items; [null] is no kind of a node. *)
Definition wellKinded (q : Property) : Prop :=
  match Type_ q with
  | Array => is_Some (Items q) ∧ Properties q = None ∧ Required q = None
  | ObjectT => Items q = None
  | Null => False
  | _ => Items q = None ∧ Properties q = None ∧ Required q = None
  end.

(** An enum list, when set, is not empty and holds values of the node's
    kind. *)
Definition enumMatches (q : Property) : Prop :=
  match Enum q with
  | None => True
  | Some values => values ≠ [] ∧ Forall (valueOfKind (Type_ q)) values
  end.

(** The type under any number of pointer indirections. *)
Fixpoint underlying (t : reflect.type) : reflect.type :=
  match t with
  | reflect.TPtr elem => underlying elem
  | _ => t
  end.

(** Every anonymous field the derivation meets in [t] has a struct type:
    the fields of a struct that the two loops reflect are its anonymous
    fields and its explicit fields; element types of arrays, slices and
    pointers are reflected, those of maps are not. *)
Fixpoint embedsStructsOnly (t : reflect.type) : bool :=
  match t with
  | reflect.TArray _ elem | reflect.TSlice elem | reflect.TPtr elem =>
      embedsStructsOnly elem
  | reflect.TStruct _ _ _ fields =>
      List.forallb
        (λ f, if reflect.Anonymous f
              then match reflect.Type_ f with
                   | reflect.TStruct _ _ _ _ => embedsStructsOnly (reflect.Type_ f)
                   | _ => false
                   end
              else if explicit f then embedsStructsOnly (reflect.Type_ f)
              else true)
        fields
  | _ => true
  end.

(** Every node under [p] carries what its kind asks for, and an enum
    list of its kind. *)
Definition nodesSound (p : Property) : Prop :=
  ∀ q, node p q → wellKinded q ∧ enumMatches q.

(** What the first loop needs of the recursive call on a field's type for
    [nodesSound]: a sound schema and, for a primitive kind, the bare
    property of that kind. *)
Definition typeSound (rf : Reflected) : Prop :=
  ∀ item, byType rf = Ok item →
          nodesSound item
          ∧ (primitive (reflect.KindOf (reflect.Type_ (field rf))) = true →
             item = newProperty (kindType (reflect.KindOf (reflect.Type_ (field rf))))).

(** And of the call on an embedded type. *)
Definition objectSound (rf : Reflected) : Prop :=
  ∀ object, byObject rf = Ok object → nodesSound object.

(** A root schema with its properties and its required list declared. *)
Definition rooted (schema : InputSchema) : Prop :=
  is_Some (SchemaProperties schema) ∧ is_Some (SchemaRequired schema).

(** The number of commas in a tag. *)
Definition commas (v : string) : nat :=
  length (List.filter (Ascii.eqb ",") (list_ascii_of_string v)).

Section calls.

Variable ParseFloat : string → option strconv.float64.

(** The names an embedded field appends to the required list. *)
Definition embeddedRequired (f : reflect.StructField) : list string :=
  match reflectSchemaByObject ParseFloat (reflect.Type_ f) with
  | Ok object => default [] (Required object)
  | _ => []
  end.

(** The cache after a sequence of calls of [generateSchemaFromReqStruct],
    one after the other. *)
Fixpoint afterCalls (vs : list (option reflect.type))
         (schemaCache : pkg.SyncMap InputSchema) : pkg.SyncMap InputSchema :=
  match vs with
  | [] => schemaCache
  | v :: vs' =>
      afterCalls vs' (generateSchemaFromReqStruct ParseFloat v schemaCache).2
  end.

End calls.

(** * Properties *)

(** ** The Go library functions on examples *)

Example HasSuffix_omitempty : strings.HasSuffix "name,omitempty" ",omitempty" = true.
Proof. reflexivity. Qed.
Example TrimSuffix_omitempty : strings.TrimSuffix "name,omitempty" ",omitempty" = "name".
Proof. reflexivity. Qed.
Example TrimSuffix_absent : strings.TrimSuffix "name" ",omitempty" = "name".
Proof. reflexivity. Qed.
Example Split_commas : strings.Split "1, x,,3" "," = ["1"; " x"; ""; "3"].
Proof. reflexivity. Qed.
Example TrimSpace_ascii : strings.TrimSpace "  a b	" = "a b".
Proof. reflexivity. Qed.
Example Atoi_neg : strconv.Atoi "-12" = Some (-12)%Z.
Proof. reflexivity. Qed.
Example Atoi_sign_only : strconv.Atoi "+" = None.
Proof. reflexivity. Qed.
Example Atoi_range : strconv.Atoi "9223372036854775808" = None.
Proof. reflexivity. Qed.
Example ParseUint_plus : strconv.ParseUint "+1" = None.
Proof. reflexivity. Qed.

(** ** The recursive calls, as the source writes them *)

Section equations.

Variable ParseFloat : string → option strconv.float64.

Lemma reflectSchemaByObject_Struct p n s fields :
  reflectSchemaByObject ParseFloat (reflect.TStruct p n s fields)
  = objectOf ParseFloat (reflected ParseFloat fields).
Proof. reflexivity. Qed.

Lemma reflectSchemaByType_Struct p n s fields :
  reflectSchemaByType ParseFloat (reflect.TStruct p n s fields)
  = (object ← reflectSchemaByObject ParseFloat (reflect.TStruct p n s fields);
     Ok (setType object ObjectT)).
Proof. reflexivity. Qed.

Lemma reflected_app fs gs :
  reflected ParseFloat (fs ++ gs)
  = (reflected ParseFloat fs ++ reflected ParseFloat gs).
Proof. apply List.map_app. Qed.

Lemma field_reflected fs :
  List.map field (reflected ParseFloat fs) = fs.
Proof.
  unfold reflected. rewrite List.map_map. simpl. apply List.map_id.
Qed.

End equations.

(** ** Tag conversions *)

Section conversions.

Variable ParseFloat : string → option strconv.float64.

Lemma enumValue_convert t value :
  primitive (reflect.KindOf t) = true →
  enumValue ParseFloat t value
  = orErr (convert ParseFloat (reflect.KindOf t) (strings.TrimSpace value))
          (EnumIncompatible (strings.TrimSpace value) (targetOf (reflect.KindOf t)) t).
Proof.
  unfold enumValue, convert.
  destruct (reflect.KindOf t); simpl; try discriminate; intros _;
    try reflexivity.
  all: match goal with |- context [orErr ?o _] => destruct o end; reflexivity.
Qed.

Lemma enumValue_unsupported t value :
  primitive (reflect.KindOf t) = false →
  enumValue ParseFloat t value = Err (EnumUnsupported t).
Proof.
  unfold enumValue. destruct (reflect.KindOf t); simpl; try discriminate; reflexivity.
Qed.


Lemma defaultValueOf_raw t d :
  primitive (reflect.KindOf t) = false →
  defaultValueOf ParseFloat t d = Ok (AString d).
Proof.
  unfold defaultValueOf. destruct (reflect.KindOf t); simpl; try discriminate; reflexivity.
Qed.

(** The loop writes the converted literals over the [nil] entries, one
    index after the other, and leaves at the first literal that has no
    conversion. *)
Lemma enumLoop_converts t enumStrings :
  primitive (reflect.KindOf t) = true →
  ∀ filled,
    match mapM (convert ParseFloat (reflect.KindOf t))
               (strings.TrimSpace <$> enumStrings) with
    | Some values =>
        enumLoop ParseFloat t (length filled) enumStrings
                 (filled ++ replicate (length enumStrings) Nil)
        = Ok (filled ++ values)
    | None =>
        ∃ before literal after,
          strings.TrimSpace <$> enumStrings = (before ++ literal :: after)
          ∧ Forall (λ l, is_Some (convert ParseFloat (reflect.KindOf t) l)) before
          ∧ convert ParseFloat (reflect.KindOf t) literal = None
          ∧ enumLoop ParseFloat t (length filled) enumStrings
                     (filled ++ replicate (length enumStrings) Nil)
            = Err (EnumIncompatible literal (targetOf (reflect.KindOf t)) t)
    end.
Proof.
  intros Hk. induction enumStrings as [|value rest IH]; intros filled.
  - simpl. by rewrite app_nil_r.
  - cbn [enumLoop length replicate fmap list_fmap mapM].
    rewrite enumValue_convert by done.
    destruct (convert ParseFloat (reflect.KindOf t) (strings.TrimSpace value))
      as [x|] eqn:Hx; simpl.
    + replace (<[length filled:=x]> (filled ++ Nil :: replicate (length rest) Nil))
        with ((filled ++ [x]) ++ replicate (length rest) Nil).
      2:{ rewrite <- (Nat.add_0_r (length filled)) at 1.
          rewrite insert_app_r. simpl. by rewrite <- app_assoc. }
      replace (S (length filled)) with (length (filled ++ [x]))
        by (rewrite length_app; simpl; lia).
      specialize (IH (filled ++ [x])).
      destruct (mapM _ _); simpl.
      * by rewrite IH, <- app_assoc.
      * destruct IH as (before & literal & after & Heq & Hbefore & Hlit & Hloop).
        exists (strings.TrimSpace value :: before), literal, after.
        rewrite Heq. repeat split; try done.
        constructor; [by rewrite Hx|done].
    + exists [], (strings.TrimSpace value), (strings.TrimSpace <$> rest).
      repeat split; try done.
Qed.

Lemma Split_nonempty s sep : strings.Split s sep ≠ [].
Proof.
  destruct s as [|c s]; simpl; [done|].
  destruct (Ascii.eqb c sep); [done|]. by destruct (strings.Split s sep).
Qed.

End conversions.

Section tags.

Variable ParseFloat : string → option strconv.float64.



(** The first loop's body, once the field's type is reflected and its
    [required] tag is read. *)
Lemma reflectField_reflected rf jsonTag properties requiredFields item required :
  byType rf = Ok item →
  requiredTag (fieldName (field rf) jsonTag).1
              (reflect.Get (reflect.Tag (field rf)) "required")
              (fieldName (field rf) jsonTag).2 = Ok required →
  reflectField ParseFloat rf jsonTag properties requiredFields
  = (let name := (fieldName (field rf) jsonTag).1 in
     let description := reflect.Get (reflect.Tag (field rf)) "description" in
     let item := if String.eqb description "" then item
                 else setDescription item description in
     item ← enumTag ParseFloat (reflect.Type_ (field rf))
                    (reflect.Get (reflect.Tag (field rf)) "enum") item;
     item ← defaultTag ParseFloat (reflect.Type_ (field rf))
                       (reflect.Get (reflect.Tag (field rf)) "default") item;
     Ok (<[name := item]> properties,
         if required then requiredFields ++ [name] else requiredFields)).
Proof.
  intros Hitem Hreq. unfold reflectField.
  destruct (fieldName (field rf) jsonTag) as [name required0]; simpl in *.
  by rewrite Hitem; simpl; rewrite Hreq.
Qed.

(** C7. A map type whose key is not of string kind is refused with the
    error that names the key's kind; with a key of string kind it
    reflects, whatever the element type, to an object with no
    properties and no required list. *)
Theorem C7_map_types (key elem : reflect.type) :
  reflectSchemaByType ParseFloat (reflect.TMap key elem)
  = if decide (reflect.KindOf key = reflect.String)
    then Ok (mkProperty ObjectT "" None None None None Nil)
    else Err (UnsupportedMapKey (reflect.KindOf key)).
Proof.
  simpl. by repeat case_decide.
Qed.

End tags.



(** ** The two field loops *)

Section loops.

Variable ParseFloat : string → option strconv.float64.

Lemma fieldsLoop_app pre post properties requiredFields anonymousFields :
  fieldsLoop ParseFloat (pre ++ post) properties requiredFields anonymousFields
  = ('(p, r, a) ← fieldsLoop ParseFloat pre properties requiredFields anonymousFields;
     fieldsLoop ParseFloat post p r a).
Proof.
  revert properties requiredFields anonymousFields.
  induction pre as [|rf pre IH]; intros properties requiredFields anonymousFields;
    [done|].
  cbn [app fieldsLoop].
  destruct (reflect.Anonymous (field rf)); [apply IH|].
  destruct (negb (reflect.IsExported (field rf))); [apply IH|].
  destruct (String.eqb _ "-"); [apply IH|].
  destruct (reflectField _ _ _ _ _) as [[p r]| |]; [apply IH|done..].
Qed.

(** The anonymous fields are set aside in declaration order, after the
    ones already set aside, and play no part in the first loop. *)
Lemma fieldsLoop_split fields properties requiredFields anonymousFields :
  fieldsLoop ParseFloat fields properties requiredFields anonymousFields
  = ('(p, r, _) ←
       fieldsLoop ParseFloat
         (List.filter (λ rf, negb (reflect.Anonymous (field rf))) fields)
         properties requiredFields [];
     Ok (p, r, anonymousFields
               ++ List.filter (λ rf, reflect.Anonymous (field rf)) fields)).
Proof.
  revert properties requiredFields anonymousFields.
  induction fields as [|rf fields IH];
    intros properties requiredFields anonymousFields.
  - simpl. by rewrite app_nil_r.
  - cbn [fieldsLoop List.filter].
    destruct (reflect.Anonymous (field rf)) eqn:Hanon; cbn [negb].
    + rewrite IH. rewrite <- app_assoc. done.
    + cbn [fieldsLoop]. rewrite Hanon.
      destruct (negb (reflect.IsExported (field rf))); [apply IH|].
      destruct (String.eqb _ "-"); [apply IH|].
      destruct (reflectField _ _ _ _ _) as [[p r]| |]; [apply IH|done..].
Qed.

Lemma reflected_filter (P : reflect.StructField → bool) fields :
  List.filter (λ rf, P (field rf)) (reflected ParseFloat fields)
  = reflected ParseFloat (List.filter P fields).
Proof.
  induction fields as [|f fields IH]; [done|].
  simpl. destruct (P f); simpl; by rewrite IH.
Qed.

Lemma fieldsLoop_skip rf fields properties requiredFields anonymousFields :
  reflect.Anonymous (field rf) = false →
  explicit (field rf) = false →
  fieldsLoop ParseFloat (rf :: fields) properties requiredFields anonymousFields
  = fieldsLoop ParseFloat fields properties requiredFields anonymousFields.
Proof.
  unfold explicit. intros Hanon Hskip. cbn [fieldsLoop]. rewrite Hanon in *.
  destruct (reflect.IsExported (field rf)); [|done].
  by destruct (String.eqb _ "-").
Qed.

(** C1 (amended). A struct field that is not exported and not embedded
    is skipped entirely: the struct reflects exactly as it does with the
    field removed, so the field adds no property, no required entry and
    no error. *)
Theorem C1_unexported_field_skipped p n s pre f post :
  reflect.IsExported f = false →
  reflect.Anonymous f = false →
  reflectSchemaByObject ParseFloat (reflect.TStruct p n s (pre ++ f :: post))
  = reflectSchemaByObject ParseFloat (reflect.TStruct p n s (pre ++ post)).
Proof.
  intros Hexp Hanon.
  rewrite !reflectSchemaByObject_Struct, !reflected_app. unfold objectOf.
  rewrite !fieldsLoop_app.
  destruct (fieldsLoop _ (reflected _ pre) _ _ _) as [[[p0 r0] a0]| |]; [|done..].
  cbn [mbind result_bind]. change (reflected ParseFloat (f :: post))
    with (mkReflected f (reflectSchemaByType ParseFloat (reflect.Type_ f))
            (reflectSchemaByObject ParseFloat (reflect.Type_ f))
          :: reflected ParseFloat post).
  rewrite fieldsLoop_skip; [done|done|].
  unfold explicit. simpl. by rewrite Hexp, andb_false_r.
Qed.

End loops.

Lemma C1_unexported_field_skipped_witness :
  reflect.IsExported (reflect.mkStructField "c" "main" reflect.TChan [] false) = false
  ∧ reflect.Anonymous (reflect.mkStructField "c" "main" reflect.TChan [] false) = false
  ∧ reflectSchemaByObject noFloat examples.Hidden
    = reflectSchemaByObject noFloat
        (reflect.TStruct "main" "Hidden" "main.Hidden"
           [examples.exported "N" (reflect.TInt reflect.W) []]).
Proof.
  split; [reflexivity|]. split; [reflexivity|].
  exact (C1_unexported_field_skipped noFloat "main" "Hidden" "main.Hidden" []
           (reflect.mkStructField "c" "main" reflect.TChan [] false)
           [examples.exported "N" (reflect.TInt reflect.W) []] eq_refl eq_refl).
Defined.

(** C1, as stated, fails on an embedded field: the field [inner] of
    [Outer] is not exported, and its properties and required names are
    in the schema of [Outer]. *)
Lemma C1_counterexample :
  reflect.IsExported (reflect.mkStructField "inner" "main" examples.inner [] true) = false
  ∧ reflectSchemaByObject noFloat
      (reflect.TStruct "main" "Outer" "main.Outer"
         [reflect.mkStructField "inner" "main" examples.inner [] true])
    = Ok (mkProperty ObjectT "" None
            (Some (<["A" := newProperty String]> (<["b" := newProperty Integer]> ∅)))
            (Some ["A"]) None Nil)
  ∧ reflectSchemaByObject noFloat (reflect.TStruct "main" "Outer" "main.Outer" [])
    = Ok (mkProperty ObjectT "" None (Some ∅) (Some []) None Nil).
Proof.
  split; [reflexivity|]. split; vm_compute; reflexivity.
Qed.

(** ** Merging the properties of an embedded struct *)

Section merging.

Variable ParseFloat : string → option strconv.float64.

Lemma find_agree {A} (f g : A → bool) (l : list A) :
  (∀ x, x ∈ l → f x = g x) → List.find f l = List.find g l.
Proof.
  induction l as [|x l IH]; intros Hfg; [done|].
  simpl. rewrite <- (Hfg x) by left.
  destruct (f x); [done|]. apply IH. intros y Hy. apply Hfg. by right.
Qed.

(** The merge loop over entries with distinct names stops at the first
    name already present, and otherwise adds them all. *)
Lemma mergeLoop_entries (entries : list (string * Property)) :
  NoDup entries.*1 →
  ∀ properties : gmap string Property,
    mergeLoop entries properties
    = match List.find (λ e, bool_decide (is_Some (properties !! e.1))) entries with
      | Some e => Err (DuplicateProperty e.1)
      | None => Ok (list_to_map entries ∪ properties)
      end.
Proof.
  induction entries as [|[name c] rest IH]; intros Hnodup properties.
  - simpl. by rewrite (left_id_L ∅ (∪)).
  - apply NoDup_cons in Hnodup as [Hname Hrest].
    cbn [mergeLoop List.find fst].
    destruct (properties !! name) as [c'|] eqn:Hlookup.
    + by rewrite bool_decide_eq_true_2.
    + rewrite bool_decide_eq_false_2 by (by intros [? ?]).
      rewrite (IH Hrest).
      rewrite (find_agree _ (λ e, bool_decide (is_Some (properties !! e.1)))).
      2:{ intros [name' c''] Hin. simpl.
          rewrite lookup_insert_ne; [done|].
          intros ->. apply Hname. apply list_elem_of_fmap. by exists (name', c''). }
      destruct (List.find _ rest); [done|].
      f_equal. simpl.
      rewrite <- insert_union_r by (by apply not_elem_of_list_to_map_1).
      by rewrite insert_union_l.
Qed.

Lemma mergeLoop_rangeOf (m : option (gmap string Property)) properties :
  mergeLoop (rangeOf m) properties = mergeEmbedded (default ∅ m) properties.
Proof.
  unfold mergeEmbedded. destruct m as [m|]; simpl.
  - rewrite mergeLoop_entries by apply NoDup_fst_map_to_list.
    by rewrite list_to_map_to_list.
  - rewrite map_to_list_empty. simpl. by rewrite (left_id_L ∅ (∪)).
Qed.

Lemma anonymousLoop_embedAll embedded properties requiredFields :
  anonymousLoop (reflected ParseFloat embedded) properties requiredFields
  = embedAll ParseFloat embedded (properties, requiredFields).
Proof.
  revert properties requiredFields.
  induction embedded as [|f rest IH]; intros properties requiredFields; [done|].
  cbn [reflected List.map anonymousLoop embedAll byObject]. unfold embedOne.
  destruct (reflectSchemaByObject ParseFloat (reflect.Type_ f)) as [object| |];
    [|done..].
  cbn [mbind result_bind fst snd]. rewrite mergeLoop_rangeOf.
  destruct (mergeEmbedded _ _) as [merged| |]; [|done..].
  apply IH.
Qed.

(** The struct body in two passes: the explicit fields, then the
    embedded ones. *)
Lemma objectOf_passes fields :
  objectOf ParseFloat (reflected ParseFloat fields)
  = ('(properties, requiredFields, _) ←
       fieldsLoop ParseFloat
         (reflected ParseFloat (List.filter (λ f, negb (reflect.Anonymous f)) fields))
         ∅ [] [];
     '(properties, requiredFields) ←
       embedAll ParseFloat (List.filter reflect.Anonymous fields)
                (properties, requiredFields);
     Ok (mkProperty ObjectT "" None (Some properties) (Some requiredFields) None Nil)).
Proof.
  unfold objectOf. rewrite fieldsLoop_split.
  rewrite (reflected_filter ParseFloat (λ f, negb (reflect.Anonymous f))).
  rewrite (reflected_filter ParseFloat reflect.Anonymous).
  destruct (fieldsLoop _ _ _ _ _) as [[[p0 r0] a0]| |]; [|done..].
  cbn [mbind result_bind app]. by rewrite anonymousLoop_embedAll.
Qed.

(** What a successful merge leaves. *)
Lemma mergeEmbedded_Ok m properties merged :
  mergeEmbedded m properties = Ok merged →
  merged = m ∪ properties ∧ m ##ₘ properties.
Proof.
  unfold mergeEmbedded.
  destruct (List.find _ _) as [e|] eqn:Hfind; [done|]. intros [= <-].
  split; [done|]. apply map_disjoint_spec. intros name c c' Hc Hc'.
  assert (bool_decide (is_Some (properties !! (name, c).1)) = false) as Hno.
  { apply (List.find_none _ _ Hfind).
    apply list_elem_of_In. by apply elem_of_map_to_list. }
  simpl in Hno. apply bool_decide_eq_false_1 in Hno. by apply Hno.
Qed.


End merging.

(** ** Names, requiredness and the required list *)

Section required.

Variable ParseFloat : string → option strconv.float64.

Lemma fieldName_externalName f :
  fieldName f (reflect.Get (reflect.Tag f) "json")
  = (externalName f, negb (strings.HasSuffix (namingTag f) ",omitempty")).
Proof.
  unfold fieldName, externalName, namingTag, strings.TrimSuffix.
  by destruct (strings.HasSuffix _ _).
Qed.

Lemma requiredTag_requiredness f :
  requiredTag (externalName f) (reflect.Get (reflect.Tag f) "required")
              (negb (strings.HasSuffix (namingTag f) ",omitempty"))
  = orErr (requiredness f)
          (InvalidRequired (externalName f) (reflect.Get (reflect.Tag f) "required")).
Proof.
  unfold requiredTag, requiredness. by destruct (String.eqb _ "").
Qed.

(** What a successful iteration of the first loop did. *)
Lemma reflectField_Ok rf jsonTag properties requiredFields properties' requiredFields' :
  reflectField ParseFloat rf jsonTag properties requiredFields
  = Ok (properties', requiredFields') →
  ∃ item required item1 item2,
    byType rf = Ok item
    ∧ requiredTag (fieldName (field rf) jsonTag).1
                  (reflect.Get (reflect.Tag (field rf)) "required")
                  (fieldName (field rf) jsonTag).2 = Ok required
    ∧ enumTag ParseFloat (reflect.Type_ (field rf))
              (reflect.Get (reflect.Tag (field rf)) "enum")
              (if String.eqb (reflect.Get (reflect.Tag (field rf)) "description") ""
               then item
               else setDescription item
                      (reflect.Get (reflect.Tag (field rf)) "description"))
      = Ok item1
    ∧ defaultTag ParseFloat (reflect.Type_ (field rf))
                 (reflect.Get (reflect.Tag (field rf)) "default") item1 = Ok item2
    ∧ properties' = <[(fieldName (field rf) jsonTag).1 := item2]> properties
    ∧ requiredFields'
      = if required then requiredFields ++ [(fieldName (field rf) jsonTag).1]
        else requiredFields.
Proof.
  unfold reflectField.
  destruct (fieldName (field rf) jsonTag) as [name computed]; cbn [fst snd].
  destruct (byType rf) as [item| |]; [|done..]. cbn [mbind result_bind].
  destruct (requiredTag _ _ _) as [required| |]; [|done..]. cbn [mbind result_bind].
  destruct (enumTag _ _ _ _) as [item1| |] eqn:Henum; [|done..].
  cbn [mbind result_bind].
  destruct (defaultTag _ _ _ _) as [item2| |] eqn:Hdefault; [|done..].
  cbn [mbind result_bind].
  intros [= <- <-]. by exists item, required, item1, item2.
Qed.

(** The first loop only appends to the required list. *)
Lemma fieldsLoop_required_grows fields :
  ∀ properties requiredFields anonymousFields properties' requiredFields' anonymousFields',
    fieldsLoop ParseFloat fields properties requiredFields anonymousFields
    = Ok (properties', requiredFields', anonymousFields') →
    ∃ more, requiredFields' = requiredFields ++ more.
Proof.
  induction fields as [|rf fields IH]; intros properties requiredFields
    anonymousFields properties' requiredFields' anonymousFields'.
  - intros [= <- <- <-]. exists []. by rewrite app_nil_r.
  - cbn [fieldsLoop].
    destruct (reflect.Anonymous (field rf)); [apply IH|].
    destruct (negb (reflect.IsExported (field rf))); [apply IH|].
    destruct (String.eqb _ "-"); [apply IH|].
    destruct (reflectField _ _ _ _ _) as [[p r]| |] eqn:Hfield; [|done..].
    cbn [mbind result_bind]. intros Hrest.
    apply IH in Hrest as [more ->].
    apply reflectField_Ok in Hfield
      as (item & required & item1 & item2 & _ & _ & _ & _ & _ & ->).
    destruct required; [|by exists more].
    eexists. by rewrite <- app_assoc.
Qed.

(** So does the second. *)
Lemma anonymousLoop_required_grows anonymousFields :
  ∀ properties requiredFields properties' requiredFields',
    anonymousLoop anonymousFields properties requiredFields
    = Ok (properties', requiredFields') →
    ∃ more, requiredFields' = requiredFields ++ more.
Proof.
  induction anonymousFields as [|rf rest IH];
    intros properties requiredFields properties' requiredFields'.
  - intros [= <- <-]. exists []. by rewrite app_nil_r.
  - cbn [anonymousLoop].
    destruct (byObject rf) as [object| |]; [|done..]. cbn [mbind result_bind].
    destruct (mergeLoop _ _) as [merged| |]; [|done..].
    cbn [mbind result_bind]. intros Hrest.
    apply IH in Hrest as [more ->]. eexists. by rewrite <- app_assoc.
Qed.

Lemma fieldsLoop_namesDeclared fields :
  ∀ properties requiredFields anonymousFields properties' requiredFields' anonymousFields',
    fieldsLoop ParseFloat fields properties requiredFields anonymousFields
    = Ok (properties', requiredFields', anonymousFields') →
    namesDeclared properties requiredFields →
    namesDeclared properties' requiredFields'.
Proof.
  induction fields as [|rf fields IH]; intros properties requiredFields
    anonymousFields properties' requiredFields' anonymousFields'.
  - by intros [= <- <- <-].
  - cbn [fieldsLoop].
    destruct (reflect.Anonymous (field rf)); [apply IH|].
    destruct (negb (reflect.IsExported (field rf))); [apply IH|].
    destruct (String.eqb _ "-"); [apply IH|].
    destruct (reflectField _ _ _ _ _) as [[p r]| |] eqn:Hfield; [|done..].
    cbn [mbind result_bind]. intros Hrest Hdeclared.
    apply (IH _ _ _ _ _ _ Hrest).
    apply reflectField_Ok in Hfield
      as (item & required & item1 & item2 & _ & _ & _ & _ & -> & ->).
    intros name Hname. apply lookup_insert_is_Some'.
    destruct required; [|by right; apply Hdeclared].
    apply elem_of_app in Hname as [Hname|Hname]; [by right; apply Hdeclared|].
    left. by apply list_elem_of_singleton in Hname.
Qed.

Lemma embedAll_namesDeclared embedded :
  Forall (λ f, ∀ object,
            reflectSchemaByObject ParseFloat (reflect.Type_ f) = Ok object →
            ∃ m r, Properties object = Some m ∧ Required object = Some r
                   ∧ namesDeclared m r) embedded →
  ∀ properties requiredFields properties' requiredFields',
    embedAll ParseFloat embedded (properties, requiredFields)
    = Ok (properties', requiredFields') →
    namesDeclared properties requiredFields →
    namesDeclared properties' requiredFields'.
Proof.
  induction 1 as [|f rest Hf _ IH];
    intros properties requiredFields properties' requiredFields'.
  - by intros [= <- <-].
  - cbn [embedAll]. unfold embedOne.
    destruct (reflectSchemaByObject _ _) as [object| |]; [|done..].
    destruct (Hf object eq_refl) as (m & r & Hm & Hr & Hmr).
    cbn [mbind result_bind fst snd]. rewrite Hm, Hr. cbn [default].
    destruct (mergeEmbedded _ _) as [merged| |] eqn:Hmerge; [|done..].
    cbn [mbind result_bind]. intros Hrest Hdeclared.
    apply (IH _ _ _ _ Hrest).
    apply mergeEmbedded_Ok in Hmerge as [-> _].
    intros name Hname. apply lookup_union_is_Some.
    apply elem_of_app in Hname as [Hname|Hname]; [right|left]; auto.
Qed.

Lemma reflectSchemaByObject_namesDeclared t :
  ∀ object,
    reflectSchemaByObject ParseFloat t = Ok object →
    ∃ m r, Properties object = Some m ∧ Required object = Some r
           ∧ namesDeclared m r.
Proof.
  induction t as [| | | | | | | | | | | | | | | | |p n s fields IH]
    using reflect.type_fields_ind; try done.
  intros object. rewrite reflectSchemaByObject_Struct, objectOf_passes.
  destruct (fieldsLoop _ _ _ _ _) as [[[p0 r0] a0]| |] eqn:Hfirst; [|done..].
  cbn [mbind result_bind].
  destruct (embedAll _ _ _) as [[p1 r1]| |] eqn:Hsecond; [|done..].
  cbn [mbind result_bind]. intros [= <-].
  exists p1, r1. repeat split.
  eapply embedAll_namesDeclared; [|exact Hsecond|].
  - rewrite Forall_forall in IH |- *. intros f Hf. apply IH.
    apply list_elem_of_In in Hf. apply List.filter_In in Hf as [Hf _].
    by apply list_elem_of_In.
  - eapply fieldsLoop_namesDeclared; [exact Hfirst|]. by intros name ?%elem_of_nil.
Qed.

End required.

(** ** Embedded fields and the required list of a struct *)

Section objects.

Variable ParseFloat : string → option strconv.float64.

(** C2. The derivation of a struct is the pass over its explicit fields
    followed by the pass over its embedded fields in declaration order;
    an embedded field is reflected as an object through a recursive
    call, its properties are merged into the parent's and its required
    names are appended to the parent's required list; each of those
    names is the name of one of the merged properties. *)
Theorem C2_embedded_fields_deferred p n s fields :
  reflectSchemaByObject ParseFloat (reflect.TStruct p n s fields)
  = ('(properties, requiredFields, _) ←
       fieldsLoop ParseFloat
         (reflected ParseFloat (List.filter (λ f, negb (reflect.Anonymous f)) fields))
         ∅ [] [];
     '(properties, requiredFields) ←
       embedAll ParseFloat (List.filter reflect.Anonymous fields)
                (properties, requiredFields);
     Ok (mkProperty ObjectT "" None (Some properties) (Some requiredFields) None Nil))
  ∧ ∀ f object,
      f ∈ List.filter reflect.Anonymous fields →
      reflectSchemaByObject ParseFloat (reflect.Type_ f) = Ok object →
      ∃ m r, Properties object = Some m ∧ Required object = Some r
             ∧ ∀ name, name ∈ r → is_Some (m !! name).
Proof.
  split.
  - rewrite reflectSchemaByObject_Struct. apply objectOf_passes.
  - intros f object _. apply reflectSchemaByObject_namesDeclared.
Qed.



(** An error of the first loop's body on an explicit field, reached with
    the fields before it reflected, is the error of the struct. *)
Lemma reflectSchemaByObject_field_error p n s pre f post properties requiredFields
      anonymousFields e :
  explicit f = true →
  fieldsLoop ParseFloat (reflected ParseFloat pre) ∅ [] []
  = Ok (properties, requiredFields, anonymousFields) →
  reflectField ParseFloat
    (mkReflected f (reflectSchemaByType ParseFloat (reflect.Type_ f))
                 (reflectSchemaByObject ParseFloat (reflect.Type_ f)))
    (reflect.Get (reflect.Tag f) "json") properties requiredFields = Err e →
  reflectSchemaByObject ParseFloat (reflect.TStruct p n s (pre ++ f :: post)) = Err e.
Proof.
  intros Hexplicit Hpre Hfield.
  rewrite reflectSchemaByObject_Struct, reflected_app. unfold objectOf.
  rewrite fieldsLoop_app, Hpre. cbn [mbind result_bind].
  change (reflected ParseFloat (f :: post))
    with (mkReflected f (reflectSchemaByType ParseFloat (reflect.Type_ f))
            (reflectSchemaByObject ParseFloat (reflect.Type_ f))
          :: reflected ParseFloat post).
  unfold explicit in Hexplicit.
  apply andb_prop in Hexplicit as [[Hanon Hexp]%andb_prop Hjson].
  cbn [fieldsLoop field]. apply negb_true_iff in Hanon, Hjson.
  rewrite Hanon, Hexp, Hjson. cbn [negb]. by rewrite Hfield.
Qed.

(** C10. When the kind of the declared type of an explicit field is not a
    primitive one (a pointer, a slice, an array, a struct, a map), a
    non-empty [enum] tag makes the derivation of the struct fail with the
    unsupported-type-for-enum error, although the type itself reflects to
    a schema; the field is reached by the first loop and its [required]
    tag is well formed. *)
Theorem C10_enum_on_non_primitive p n s pre f post properties requiredFields
        anonymousFields item required :
  explicit f = true →
  fieldsLoop ParseFloat (reflected ParseFloat pre) ∅ [] []
  = Ok (properties, requiredFields, anonymousFields) →
  primitive (reflect.KindOf (reflect.Type_ f)) = false →
  reflect.Get (reflect.Tag f) "enum" ≠ "" →
  reflectSchemaByType ParseFloat (reflect.Type_ f) = Ok item →
  requiredness f = Some required →
  reflectSchemaByObject ParseFloat (reflect.TStruct p n s (pre ++ f :: post))
  = Err (EnumUnsupported (reflect.Type_ f)).
Proof.
  intros Hexplicit Hpre Hk Hv Hitem Hreq.
  eapply reflectSchemaByObject_field_error; [done..|].
  rewrite (reflectField_reflected ParseFloat _ _ _ _ item required); cbn [field byType].
  - unfold enumTag.
    destruct (String.eqb_spec (reflect.Get (reflect.Tag f) "enum") "") as [?|_];
      [done|].
    pose proof (Split_nonempty (reflect.Get (reflect.Tag f) "enum") ",").
    destruct (strings.Split _ _) as [|value rest]; [done|].
    cbn [enumLoop]. by rewrite enumValue_unsupported.
  - done.
  - rewrite fieldName_externalName. cbn [fst snd].
    by rewrite requiredTag_requiredness, Hreq.
Qed.

End objects.

Lemma C2_embedded_fields_deferred_witness :
  reflect.mkStructField "inner" "main" examples.inner [] true
  ∈ List.filter reflect.Anonymous
      [examples.exported "A" (reflect.TInt reflect.W) [];
       reflect.mkStructField "inner" "main" examples.inner [] true]
  ∧ reflectSchemaByObject noFloat examples.inner = Ok examples.innerSchema
  ∧ ∃ m r,
      Properties examples.innerSchema = Some m
      ∧ Required examples.innerSchema = Some r
      ∧ ∀ name, name ∈ r → is_Some (m !! name).
Proof.
  assert (reflect.mkStructField "inner" "main" examples.inner [] true
          ∈ List.filter reflect.Anonymous
              [examples.exported "A" (reflect.TInt reflect.W) [];
               reflect.mkStructField "inner" "main" examples.inner [] true])
    as Hin by (cbn; left).
  assert (reflectSchemaByObject noFloat examples.inner = Ok examples.innerSchema)
    as Hobject by (vm_compute; reflexivity).
  split; [exact Hin|]. split; [exact Hobject|].
  exact (proj2 (C2_embedded_fields_deferred noFloat "main" "Both" "main.Both" _)
           _ _ Hin Hobject).
Defined.



Lemma C10_enum_on_non_primitive_witness :
  explicit (examples.exported "S" (reflect.TPtr reflect.TString) [("enum", "a,b")])
  = true
  ∧ fieldsLoop noFloat (reflected noFloat []) ∅ [] [] = Ok (∅, [], [])
  ∧ primitive (reflect.KindOf (reflect.TPtr reflect.TString)) = false
  ∧ "a,b" ≠ ""
  ∧ reflectSchemaByType noFloat (reflect.TPtr reflect.TString)
    = Ok (newProperty String)
  ∧ requiredness (examples.exported "S" (reflect.TPtr reflect.TString)
                    [("enum", "a,b")]) = Some true
  ∧ reflectSchemaByObject noFloat examples.Opt
    = Err (EnumUnsupported (reflect.TPtr reflect.TString)).
Proof.
  split; [reflexivity|]. split; [reflexivity|]. split; [reflexivity|].
  split; [done|]. split; [reflexivity|]. split; [reflexivity|].
  exact (C10_enum_on_non_primitive noFloat "main" "Opt" "main.Opt" []
           (examples.exported "S" (reflect.TPtr reflect.TString) [("enum", "a,b")])
           [] ∅ [] [] (newProperty String) true
           eq_refl eq_refl eq_refl ltac:(done) eq_refl eq_refl).
Defined.

(** The required list on two structs: [required:"false"] overrides the
    default, and [,omitempty] clears it. *)
Example Level_schema :
  reflectSchemaByObject noFloat examples.Level
  = Ok (mkProperty ObjectT "" None
          (Some (<["L" := mkProperty Integer "" None None None
                            (Some [AInt 1; AInt 2; AInt 3]) (AInt 2)]> ∅))
          (Some []) None Nil).
Proof. vm_compute. reflexivity. Qed.

Example inner_schema :
  reflectSchemaByObject noFloat examples.inner
  = Ok (mkProperty ObjectT "" None
          (Some (<["A" := newProperty String]> (<["b" := newProperty Integer]> ∅)))
          (Some ["A"]) None Nil).
Proof. vm_compute. reflexivity. Qed.

(** A malformed enum literal on an integer field, an enum on a pointer
    field and a field of function type are errors of the whole
    derivation. *)
Example BadLevel_error :
  reflectSchemaByObject noFloat examples.BadLevel
  = Err (EnumIncompatible "x" integer_type (reflect.TInt reflect.W)).
Proof. vm_compute. reflexivity. Qed.

Example Opt_error :
  reflectSchemaByObject noFloat examples.Opt
  = Err (EnumUnsupported (reflect.TPtr reflect.TString)).
Proof. vm_compute. reflexivity. Qed.

Example Bad_error :
  reflectSchemaByObject noFloat examples.Bad = Err (UnsupportedKind reflect.Func).
Proof. vm_compute. reflexivity. Qed.

(** ** The nodes of a derived schema *)

Section nodes.

Variable ParseFloat : string → option strconv.float64.





Lemma defaultTag_Ok t d item item' :
  defaultTag ParseFloat t d item = Ok item' →
  item' = item
  ∨ ∃ value, item' = setDefault item value
             ∧ (primitive (reflect.KindOf t) = false → value = AString d).
Proof.
  unfold defaultTag. destruct (String.eqb d ""); [intros [= <-]; by left|].
  destruct (primitive (reflect.KindOf t)) eqn:Hk.
  - destruct (defaultValueOf _ _ _) as [value| |]; [|done..].
    intros [= <-]. right. by exists value.
  - rewrite defaultValueOf_raw by done. intros [= <-]. right. by exists (AString d).
Qed.



(** The first loop sets aside fields of the struct only. *)
Lemma fieldsLoop_anonymous fields properties requiredFields properties' requiredFields'
      anonymousFields' :
  fieldsLoop ParseFloat fields properties requiredFields []
  = Ok (properties', requiredFields', anonymousFields') →
  anonymousFields' = List.filter (λ rf, reflect.Anonymous (field rf)) fields.
Proof.
  rewrite fieldsLoop_split.
  destruct (fieldsLoop _ _ _ _ _) as [[[p r] a]| |]; [|done..].
  cbn [mbind result_bind]. by intros [= _ _ <-].
Qed.





End nodes.



(** ** Failures and the cache *)

Section cache.

Variable ParseFloat : string → option strconv.float64.

(** An error of the reflection of an explicit field's type leaves the
    first loop at once. *)
Lemma fieldsLoop_type_error rf fields properties requiredFields anonymousFields e :
  explicit (field rf) = true →
  byType rf = Err e →
  fieldsLoop ParseFloat (rf :: fields) properties requiredFields anonymousFields
  = Err e.
Proof.
  unfold explicit. intros [[Hanon Hexp]%andb_prop Hjson]%andb_prop Hrf.
  apply negb_true_iff in Hanon, Hjson.
  cbn [fieldsLoop]. rewrite Hanon, Hexp, Hjson. cbn [negb].
  unfold reflectField. destruct (fieldName _ _). by rewrite Hrf.
Qed.

End cache.

(** A successful call stores the schema, and the next call returns the
    stored one. *)
Example generate_caches :
  (generateSchemaFromReqStruct noFloat (Some (reflect.TPtr examples.inner)) ∅).2
  !! "main.inner"
  = Some (mkInputSchema Object (Properties examples.innerSchema)
                        (Required examples.innerSchema)).
Proof. vm_compute. reflexivity. Qed.

(** * Further properties of the derivation *)

(** ** Fields the first loop leaves out, and embedded fields *)

Section fields.

Variable ParseFloat : string → option strconv.float64.

(** X1. A field that is not embedded and carries the tag [json:"-"] is
    left out: the struct reflects exactly as it does with the field
    removed, whatever the field's type and other tags. *)
Theorem X1_json_dash_excluded p n s pre f post :
  reflect.Anonymous f = false →
  reflect.Get (reflect.Tag f) "json" = "-" →
  reflectSchemaByObject ParseFloat (reflect.TStruct p n s (pre ++ f :: post))
  = reflectSchemaByObject ParseFloat (reflect.TStruct p n s (pre ++ post)).
Proof.
  intros Hanon Hjson.
  rewrite !reflectSchemaByObject_Struct, !reflected_app. unfold objectOf.
  rewrite !fieldsLoop_app.
  destruct (fieldsLoop _ (reflected _ pre) _ _ _) as [[[p0 r0] a0]| |]; [|done..].
  cbn [mbind result_bind].
  change (reflected ParseFloat (f :: post))
    with (mkReflected f (reflectSchemaByType ParseFloat (reflect.Type_ f))
            (reflectSchemaByObject ParseFloat (reflect.Type_ f))
          :: reflected ParseFloat post).
  rewrite fieldsLoop_skip; [done|done|].
  unfold explicit. cbn [field]. rewrite Hjson. cbn. apply andb_false_r.
Qed.

Lemma embedAll_types fs gs state :
  List.map reflect.Type_ fs = List.map reflect.Type_ gs →
  embedAll ParseFloat fs state = embedAll ParseFloat gs state.
Proof.
  revert gs state. induction fs as [|f fs IH]; intros [|g gs] state; try done.
  cbn [List.map]. intros [= Hf Hrest]. cbn [embedAll]. unfold embedOne.
  rewrite Hf. destruct (reflectSchemaByObject _ _) as [object| |]; [|done..].
  cbn [mbind result_bind].
  destruct (mergeEmbedded _ _) as [merged| |]; [|done..].
  cbn [mbind result_bind]. by apply IH.
Qed.

Lemma filter_app_cons {A} (P : A → bool) pre x post :
  List.filter P (pre ++ x :: post)
  = List.filter P pre ++ (if P x then [x] else []) ++ List.filter P post.
Proof. rewrite List.filter_app. cbn. by destruct (P x). Qed.

(** X2. Of an embedded field only the type counts: its name, its package
    path and all its tags, a [json:"-"] among them, are ignored, and the
    derivation of the struct is the same with any others. *)
Theorem X2_embedded_tags_ignored p n s pre post t name pkgPath tag name' pkgPath' tag' :
  reflectSchemaByObject ParseFloat
    (reflect.TStruct p n s
       (pre ++ reflect.mkStructField name pkgPath t tag true :: post))
  = reflectSchemaByObject ParseFloat
      (reflect.TStruct p n s
         (pre ++ reflect.mkStructField name' pkgPath' t tag' true :: post)).
Proof.
  rewrite !reflectSchemaByObject_Struct, !objectOf_passes.
  rewrite !filter_app_cons. cbn [reflect.Anonymous negb app].
  destruct (fieldsLoop _ _ _ _ _) as [[[p0 r0] a0]| |]; [|done..].
  cbn [mbind result_bind]. f_equal. apply embedAll_types.
  by rewrite !List.map_app.
Qed.

(** X3. For a field that is not embedded and has neither an [enum] nor a
    [default] tag, a pointer is transparent: the struct reflects the same
    with the field's type [T] or [*T]. *)
Theorem X3_pointer_field_transparent p n s pre post name pkgPath t tag :
  reflect.Get tag "enum" = "" →
  reflect.Get tag "default" = "" →
  reflectSchemaByObject ParseFloat
    (reflect.TStruct p n s
       (pre ++ reflect.mkStructField name pkgPath (reflect.TPtr t) tag false :: post))
  = reflectSchemaByObject ParseFloat
      (reflect.TStruct p n s
         (pre ++ reflect.mkStructField name pkgPath t tag false :: post)).
Proof.
  intros Henum Hdefault.
  rewrite !reflectSchemaByObject_Struct, !reflected_app. unfold objectOf.
  rewrite !fieldsLoop_app.
  destruct (fieldsLoop _ (reflected _ pre) _ _ _) as [[[p0 r0] a0]| |]; [|done..].
  cbn [mbind result_bind]. f_equal.
  cbn [reflected List.map fieldsLoop field reflect.Anonymous reflect.Tag].
  fold (reflected ParseFloat post).
  unfold reflect.IsExported. cbn [reflect.PkgPath].
  destruct (String.eqb pkgPath ""); cbn [negb]; [|done].
  destruct (String.eqb _ "-"); [done|].
  unfold reflectField.
  cbn [field byType reflect.Tag reflect.Type_ reflectSchemaByType].
  rewrite Henum, Hdefault.
  change (fieldName (reflect.mkStructField name pkgPath (reflect.TPtr t) tag false))
    with (fieldName (reflect.mkStructField name pkgPath t tag false)).
  done.
Qed.

End fields.

Lemma X1_json_dash_excluded_witness :
  reflect.Anonymous (examples.exported "F" reflect.TFunc [("json", "-")]) = false
  ∧ reflect.Get (reflect.Tag (examples.exported "F" reflect.TFunc [("json", "-")]))
                "json" = "-"
  ∧ reflectSchemaByObject noFloat
      (reflect.TStruct "main" "T" "main.T"
         ([examples.exported "A" reflect.TString []]
          ++ examples.exported "F" reflect.TFunc [("json", "-")] :: []))
    = reflectSchemaByObject noFloat
        (reflect.TStruct "main" "T" "main.T"
           ([examples.exported "A" reflect.TString []] ++ [])).
Proof.
  split; [reflexivity|]. split; [reflexivity|].
  exact (X1_json_dash_excluded noFloat "main" "T" "main.T"
           [examples.exported "A" reflect.TString []]
           (examples.exported "F" reflect.TFunc [("json", "-")]) []
           eq_refl eq_refl).
Defined.

Lemma X3_pointer_field_transparent_witness :
  reflect.Get [("json", "s,omitempty")] "enum" = ""
  ∧ reflect.Get [("json", "s,omitempty")] "default" = ""
  ∧ reflectSchemaByObject noFloat
      (reflect.TStruct "main" "T" "main.T"
         ([] ++ reflect.mkStructField "S" "" (reflect.TPtr reflect.TString)
                  [("json", "s,omitempty")] false :: []))
    = reflectSchemaByObject noFloat
        (reflect.TStruct "main" "T" "main.T"
           ([] ++ reflect.mkStructField "S" "" reflect.TString
                    [("json", "s,omitempty")] false :: [])).
Proof.
  split; [reflexivity|]. split; [reflexivity|].
  exact (X3_pointer_field_transparent noFloat "main" "T" "main.T" [] [] "S" ""
           reflect.TString [("json", "s,omitempty")] eq_refl eq_refl).
Defined.

(** ** Panics *)

Section panics.

Variable ParseFloat : string → option strconv.float64.

Lemma embedAll_app pre post state :
  embedAll ParseFloat (pre ++ post) state
  = (state' ← embedAll ParseFloat pre state; embedAll ParseFloat post state').
Proof.
  revert state. induction pre as [|f pre IH]; intros state; [done|].
  cbn [app embedAll].
  destruct (embedOne ParseFloat f state) as [state'| |]; [|done..]. apply IH.
Qed.

(** X4. An embedded field whose type is not a struct (a pointer to a
    struct, a named scalar, an interface) makes the derivation panic in
    [NumField]: so it goes once the explicit fields and the embedded
    fields before it have been reflected. *)
Theorem X4_embedded_non_struct_panics p n s fields properties0 required0 anonymous0
        pre f post state :
  fieldsLoop ParseFloat
    (reflected ParseFloat (List.filter (λ f, negb (reflect.Anonymous f)) fields))
    ∅ [] [] = Ok (properties0, required0, anonymous0) →
  List.filter reflect.Anonymous fields = pre ++ f :: post →
  embedAll ParseFloat pre (properties0, required0) = Ok state →
  reflect.KindOf (reflect.Type_ f) ≠ reflect.Struct →
  reflectSchemaByObject ParseFloat (reflect.TStruct p n s fields)
  = Panic (NumFieldOfNonStruct (reflect.Type_ f)).
Proof.
  intros Hfirst Hanon Hpre Hkind.
  rewrite reflectSchemaByObject_Struct, objectOf_passes, Hfirst.
  cbn [mbind result_bind]. rewrite Hanon, embedAll_app, Hpre.
  cbn [mbind result_bind embedAll]. unfold embedOne.
  by destruct (reflect.Type_ f).
Qed.

Lemma enumLoop_no_panic t enumStrings :
  ∀ j enumValues q, enumLoop ParseFloat t j enumStrings enumValues ≠ Panic q.
Proof.
  induction enumStrings as [|value rest IH]; intros j enumValues q; [done|].
  cbn [enumLoop].
  destruct (enumValue ParseFloat t value) as [x| |] eqn:Hvalue.
  - apply IH.
  - done.
  - unfold enumValue in Hvalue.
    destruct (reflect.KindOf t); try done;
      match type of Hvalue with context [orErr ?o _] => by destruct o end.
Qed.

Lemma enumTag_no_panic t v item q : enumTag ParseFloat t v item ≠ Panic q.
Proof.
  unfold enumTag. destruct (String.eqb v ""); [done|].
  destruct (enumLoop _ _ _ _ _) as [values| |] eqn:Hloop; [done..|].
  by apply enumLoop_no_panic in Hloop.
Qed.

Lemma defaultTag_no_panic t d item q : defaultTag ParseFloat t d item ≠ Panic q.
Proof.
  unfold defaultTag. destruct (String.eqb d ""); [done|].
  unfold defaultValueOf.
  destruct (reflect.KindOf t); try done;
    match goal with |- context [orErr ?o _] => by destruct o end.
Qed.

(** The first loop's body panics only when the reflection of the field's
    type does. *)
Lemma reflectField_Panic rf jsonTag properties requiredFields q :
  reflectField ParseFloat rf jsonTag properties requiredFields = Panic q →
  byType rf = Panic q.
Proof.
  unfold reflectField. destruct (fieldName _ _) as [name computed].
  destruct (byType rf) as [item| |]; cbn [mbind result_bind];
    [|by intros [=]|by intros [= ->]].
  destruct (requiredTag _ _ _) as [required| |] eqn:Hreq; cbn [mbind result_bind];
    [|by intros [=]|].
  2:{ unfold requiredTag in Hreq. destruct (String.eqb _ ""); [done|].
      by destruct (strconv.ParseBool _). }
  destruct (enumTag _ _ _ _) as [item1| |] eqn:Henum; cbn [mbind result_bind];
    [|by intros [=]|by apply enumTag_no_panic in Henum].
  destruct (defaultTag _ _ _ _) as [item2| |] eqn:Hdefault; cbn [mbind result_bind];
    [by intros [=]|by intros [=]|by apply defaultTag_no_panic in Hdefault].
Qed.

Lemma fieldsLoop_Panic fields :
  ∀ properties requiredFields anonymousFields q,
    fieldsLoop ParseFloat fields properties requiredFields anonymousFields = Panic q →
    ∃ rf, rf ∈ fields ∧ explicit (field rf) = true ∧ byType rf = Panic q.
Proof.
  induction fields as [|rf fields IH]; intros properties requiredFields
    anonymousFields q; [done|].
  cbn [fieldsLoop].
  assert (∀ P R A,
            fieldsLoop ParseFloat fields P R A = Panic q →
            ∃ rf', rf' ∈ rf :: fields ∧ explicit (field rf') = true
                   ∧ byType rf' = Panic q) as Hrest.
  { intros P R A Hloop. apply IH in Hloop as (rf' & Hin & Hrf').
    exists rf'. split; [by right|exact Hrf']. }
  destruct (reflect.Anonymous (field rf)) eqn:Hanon; [apply Hrest|].
  destruct (reflect.IsExported (field rf)) eqn:Hexp; cbn [negb]; [|apply Hrest].
  destruct (String.eqb _ "-") eqn:Hjson; [apply Hrest|].
  destruct (reflectField _ _ _ _ _) as [[p r]| |] eqn:Hfield; cbn [mbind result_bind];
    [apply Hrest|by intros [=]|].
  intros [= <-].
  apply reflectField_Panic in Hfield. exists rf. split; [by left|]. split; [|done].
  unfold explicit. by rewrite Hanon, Hexp, Hjson.
Qed.

Lemma embedAll_Panic embedded :
  ∀ state q,
    embedAll ParseFloat embedded state = Panic q →
    ∃ f, f ∈ embedded
         ∧ reflectSchemaByObject ParseFloat (reflect.Type_ f) = Panic q.
Proof.
  induction embedded as [|f rest IH]; intros state q; [done|].
  cbn [embedAll]. unfold embedOne.
  destruct (reflectSchemaByObject _ _) as [object| |] eqn:Hobject.
  - cbn [mbind result_bind]. unfold mergeEmbedded.
    destruct (List.find _ _); cbn [mbind result_bind]; [by intros [=]|].
    intros Hrest. apply IH in Hrest as (f' & Hin & Hf').
    exists f'. split; [by right|exact Hf'].
  - by intros [=].
  - cbn [mbind result_bind]. intros [= <-]. exists f. split; [by left|done].
Qed.

Lemma resolveStruct_no_panic t q : resolveStruct t ≠ Panic q.
Proof.
  induction t using reflect.type_fields_ind; try done.
Qed.

Lemma resolveStruct_embeds t u :
  resolveStruct t = Ok u →
  reflect.KindOf u = reflect.Struct ∧ embedsStructsOnly u = embedsStructsOnly t.
Proof.
  induction t using reflect.type_fields_ind; try done.
  by intros [= <-].
Qed.

(** The struct case, from the same fact on the types of the fields. *)
Lemma struct_no_panic_fields p n s fields :
  Forall (λ f, embedsStructsOnly (reflect.Type_ f) = true →
               (∀ q, reflectSchemaByType ParseFloat (reflect.Type_ f) ≠ Panic q)
               ∧ (reflect.KindOf (reflect.Type_ f) = reflect.Struct →
                  ∀ q, reflectSchemaByObject ParseFloat (reflect.Type_ f) ≠ Panic q))
         fields →
  embedsStructsOnly (reflect.TStruct p n s fields) = true →
  ∀ q, reflectSchemaByObject ParseFloat (reflect.TStruct p n s fields) ≠ Panic q.
Proof.
  intros IH Hembeds q. rewrite Forall_forall in IH.
  cbn [embedsStructsOnly] in Hembeds. rewrite List.forallb_forall in Hembeds.
  rewrite reflectSchemaByObject_Struct, objectOf_passes.
  destruct (fieldsLoop _ _ _ _ _) as [[[p0 r0] a0]| |] eqn:Hfirst;
    cbn [mbind result_bind]; [|done|].
  - destruct (embedAll _ _ _) as [[p1 r1]| |] eqn:Hsecond;
      cbn [mbind result_bind]; [done..|].
    intros [= <-].
    apply embedAll_Panic in Hsecond as (f & Hf & Hpanic).
    apply list_elem_of_In, List.filter_In in Hf as [Hf Hanon].
    specialize (Hembeds f Hf). rewrite Hanon in Hembeds.
    apply list_elem_of_In in Hf.
    destruct (reflect.Type_ f) eqn:Htype; try done.
    rewrite <- Htype in *. revert Hpanic.
    apply (IH f Hf Hembeds). by rewrite Htype.
  - intros [= <-].
    apply fieldsLoop_Panic in Hfirst as (rf & Hrf & Hexplicit & Hpanic).
    apply list_elem_of_fmap in Hrf as (f & -> & Hf). cbn [field byType] in *.
    apply list_elem_of_In, List.filter_In in Hf as [Hf Hanon].
    specialize (Hembeds f Hf). apply negb_true_iff in Hanon.
    rewrite Hanon, Hexplicit in Hembeds.
    apply list_elem_of_In in Hf. revert Hpanic. by apply (IH f Hf Hembeds).
Qed.

Lemma reflect_no_panic t :
  embedsStructsOnly t = true →
  (∀ q, reflectSchemaByType ParseFloat t ≠ Panic q)
  ∧ (reflect.KindOf t = reflect.Struct →
     ∀ q, reflectSchemaByObject ParseFloat t ≠ Panic q).
Proof.
  induction t as [|w|w| | | | | | | | | | |len e IH|e IH|e IH|k e _ _|p n s fields IH]
    using reflect.type_fields_ind; intros Hembeds; (split; [|try done]);
    try done; try (by destruct w).
  - intros q. cbn [reflectSchemaByType]. pose proof (proj1 (IH Hembeds)) as Hno.
    destruct (reflectSchemaByType ParseFloat e) as [items| |pe]; [done..|].
    by destruct (Hno pe).
  - intros q. cbn [reflectSchemaByType]. pose proof (proj1 (IH Hembeds)) as Hno.
    destruct (reflectSchemaByType ParseFloat e) as [items| |pe]; [done..|].
    by destruct (Hno pe).
  - apply (proj1 (IH Hembeds)).
  - intros q. cbn [reflectSchemaByType]. by case_decide.
  - intros q. rewrite reflectSchemaByType_Struct.
    destruct (reflectSchemaByObject _ _) as [object| |] eqn:Hobject; [done..|].
    by apply (struct_no_panic_fields p n s fields IH Hembeds) in Hobject.
  - intros _ q Hobject. by apply (struct_no_panic_fields p n s fields IH Hembeds) in Hobject.
Qed.

(** X5. For a type that does not reach itself (the types here are finite
    trees) and in which every embedded field met by the derivation has a
    struct type, the [NumField] panic is not reached: neither the
    reflection of the type nor a call of [generateSchemaFromReqStruct] on
    a value of the type, whatever the cache holds, ends in a panic. *)
Theorem X5_no_panic t :
  embedsStructsOnly t = true →
  (∀ q, reflectSchemaByType ParseFloat t ≠ Panic q)
  ∧ (∀ schemaCache q,
       (generateSchemaFromReqStruct ParseFloat (Some t) schemaCache).1 ≠ Panic q).
Proof.
  intros Hembeds. split; [by apply reflect_no_panic|].
  intros schemaCache q. unfold generateSchemaFromReqStruct.
  destruct (resolveStruct t) as [u| |] eqn:Hresolve; [|done|].
  - destruct (resolveStruct_embeds _ _ Hresolve) as [Hkind Hu].
    destruct (pkg.Load _ _) as [schema|]; [done|].
    destruct (reflectSchemaByObject ParseFloat u) as [property| |] eqn:Hobject;
      [done..|].
    cbn. intros [= <-]. revert Hobject. apply reflect_no_panic; [|done].
    by rewrite Hu.
  - by apply resolveStruct_no_panic in Hresolve.
Qed.

End panics.

Lemma X4_embedded_non_struct_panics_witness :
  fieldsLoop noFloat
    (reflected noFloat
       (List.filter (λ f, negb (reflect.Anonymous f))
          [reflect.mkStructField "inner" "main" (reflect.TPtr examples.inner) [] true]))
    ∅ [] [] = Ok (∅, [], [])
  ∧ List.filter reflect.Anonymous
      [reflect.mkStructField "inner" "main" (reflect.TPtr examples.inner) [] true]
    = [] ++ reflect.mkStructField "inner" "main" (reflect.TPtr examples.inner) [] true
         :: []
  ∧ embedAll noFloat [] (∅, []) = Ok (∅, [])
  ∧ reflect.KindOf (reflect.TPtr examples.inner) ≠ reflect.Struct
  ∧ reflectSchemaByObject noFloat
      (reflect.TStruct "main" "P" "main.P"
         [reflect.mkStructField "inner" "main" (reflect.TPtr examples.inner) [] true])
    = Panic (NumFieldOfNonStruct (reflect.TPtr examples.inner)).
Proof.
  split; [reflexivity|]. split; [reflexivity|]. split; [reflexivity|].
  split; [done|].
  exact (X4_embedded_non_struct_panics noFloat "main" "P" "main.P"
           [reflect.mkStructField "inner" "main" (reflect.TPtr examples.inner) [] true]
           ∅ [] [] []
           (reflect.mkStructField "inner" "main" (reflect.TPtr examples.inner) [] true)
           [] (∅, []) eq_refl eq_refl eq_refl ltac:(done)).
Defined.

Lemma X5_no_panic_witness :
  embedsStructsOnly examples.Both = true
  ∧ (∀ q, reflectSchemaByType noFloat examples.Both ≠ Panic q)
  ∧ (∀ schemaCache q,
       (generateSchemaFromReqStruct noFloat (Some examples.Both) schemaCache).1
       ≠ Panic q).
Proof.
  split; [reflexivity|].
  exact (X5_no_panic noFloat examples.Both eq_refl).
Defined.

(** ** What the tags change, and the kinds of the nodes *)

Section kinds.

Variable ParseFloat : string → option strconv.float64.

Lemma reflectSchemaByType_kindType t :
  primitive (reflect.KindOf t) = true →
  reflectSchemaByType ParseFloat t = Ok (newProperty (kindType (reflect.KindOf t))).
Proof.
  destruct t as [|w|w| | | | | | | | | | | | | | |]; try discriminate;
    try destruct w; done.
Qed.

Lemma digits_nonneg s :
  ∀ n m, (0 ≤ n)%Z → strconv.digits s n = Some m → (0 ≤ m)%Z.
Proof.
  induction s as [|ch s IH]; intros n m Hn; [by intros [= <-]|].
  cbn [strconv.digits]. cbv zeta.
  destruct (andb _ _) eqn:Hd; [|done].
  apply andb_prop in Hd as [Hlo _]. apply Z.leb_le in Hlo. apply IH. lia.
Qed.

Lemma Atoi_in_range s n : strconv.Atoi s = Some n → (- 2 ^ 63 ≤ n < 2 ^ 63)%Z.
Proof.
  unfold strconv.Atoi. destruct s as [|c s]; [done|]. cbv zeta.
  match goal with
  | |- context [strconv.digits ?b 0%Z] => generalize b; intros body
  end.
  destruct body as [|c' body]; [done|].
  destruct (strconv.digits _ _) as [m|]; [|done].
  destruct (andb _ _) eqn:Hrange; [|done]. intros [= <-].
  apply andb_prop in Hrange as [Hlo Hhi].
  apply Z.leb_le in Hlo. apply Z.ltb_lt in Hhi. done.
Qed.

Lemma ParseUint_in_range s n : strconv.ParseUint s = Some n → (0 ≤ n < 2 ^ 64)%Z.
Proof.
  unfold strconv.ParseUint. destruct s as [|c s]; [done|].
  destruct (strconv.digits _ _) as [m|] eqn:Hdigits; [|done].
  destruct (m <? 2 ^ 64)%Z eqn:Hhi; [|done]. intros [= <-].
  apply Z.ltb_lt in Hhi. split; [|done].
  by apply (digits_nonneg _ 0%Z m) in Hdigits.
Qed.

Lemma convert_valueOfKind k literal value :
  convert ParseFloat k literal = Some value →
  valueOfKind (kindType k) value.
Proof.
  destruct k; cbn [convert kindType]; try done.
  all: try (intros [= <-]; done).
  all: try (destruct (strconv.ParseBool literal); [intros [= <-]|]; done).
  all: try (destruct (ParseFloat literal); [intros [= <-]|]; done).
  all: try (destruct (strconv.Atoi literal) eqn:Hn; [intros [= <-]|done];
            by apply Atoi_in_range in Hn).
  all: destruct (strconv.ParseUint literal) eqn:Hn; [intros [= <-]|done];
    by apply ParseUint_in_range in Hn.
Qed.

(** What a successful [enum] block did. *)
Lemma enumTag_values t v item item' :
  enumTag ParseFloat t v item = Ok item' →
  v = "" ∧ item' = item
  ∨ v ≠ "" ∧ primitive (reflect.KindOf t) = true
    ∧ ∃ values,
        item' = setEnum item values
        ∧ length values = length (strings.Split v ",")
        ∧ Forall (valueOfKind (kindType (reflect.KindOf t))) values.
Proof.
  unfold enumTag. destruct (String.eqb_spec v "") as [->|Hv].
  { intros [= <-]. by left. }
  intros Hloop. right. split; [done|].
  destruct (primitive (reflect.KindOf t)) eqn:Hk.
  - split; [done|].
    pose proof (enumLoop_converts ParseFloat t (strings.Split v ",") Hk []) as Hspec.
    cbn [length app] in Hspec.
    destruct (mapM _ _) as [values|] eqn:Hvalues.
    + rewrite Hspec in Hloop. cbn in Hloop. injection Hloop as <-.
      exists values. split; [done|].
      apply mapM_Some in Hvalues. split.
      * apply Forall2_length in Hvalues. by rewrite length_fmap in Hvalues.
      * clear -Hvalues. induction Hvalues as [|literal value ls vs Hc _ IH];
          constructor; [|done]. by eapply convert_valueOfKind.
    + destruct Hspec as (? & ? & ? & _ & _ & _ & Herr). by rewrite Herr in Hloop.
  - pose proof (Split_nonempty v ",") as Hsplit.
    destruct (strings.Split v ",") as [|value rest]; [done|].
    cbn [enumLoop length replicate] in Hloop.
    by rewrite enumValue_unsupported in Hloop.
Qed.

(** What a successful iteration of the first loop stored: the reflection
    of the field's type with, at most, its description, enum and default
    written. *)
Lemma reflectField_base rf jsonTag properties requiredFields properties' requiredFields' :
  reflectField ParseFloat rf jsonTag properties requiredFields
  = Ok (properties', requiredFields') →
  ∃ item item',
    byType rf = Ok item
    ∧ properties' = <[(fieldName (field rf) jsonTag).1 := item']> properties
    ∧ Type_ item' = Type_ item ∧ Items item' = Items item
    ∧ Properties item' = Properties item ∧ Required item' = Required item
    ∧ Description item'
      = (if String.eqb (reflect.Get (reflect.Tag (field rf)) "description") ""
         then Description item
         else reflect.Get (reflect.Tag (field rf)) "description")
    ∧ (reflect.Get (reflect.Tag (field rf)) "enum" = "" ∧ Enum item' = Enum item
       ∨ primitive (reflect.KindOf (reflect.Type_ (field rf))) = true
         ∧ ∃ values,
             Enum item' = Some values
             ∧ length values
               = length (strings.Split (reflect.Get (reflect.Tag (field rf)) "enum") ",")
             ∧ Forall (valueOfKind
                         (kindType (reflect.KindOf (reflect.Type_ (field rf)))))
                      values).
Proof.
  intros Hfield.
  apply reflectField_Ok in Hfield
    as (item & required & item1 & item2 & Hitem & _ & Henum & Hdefault & -> & _).
  exists item, item2. split; [done|]. split; [done|].
  set (described := if String.eqb _ "" then item else _) in Henum.
  assert (Type_ described = Type_ item ∧ Items described = Items item
          ∧ Properties described = Properties item
          ∧ Required described = Required item
          ∧ Enum described = Enum item
          ∧ Description described
            = (if String.eqb (reflect.Get (reflect.Tag (field rf)) "description") ""
               then Description item
               else reflect.Get (reflect.Tag (field rf)) "description"))
    as (HT & HI & HP & HR & HE & HD).
  { subst described. by destruct (String.eqb _ ""). }
  assert (Type_ item2 = Type_ item1 ∧ Items item2 = Items item1
          ∧ Properties item2 = Properties item1 ∧ Required item2 = Required item1
          ∧ Enum item2 = Enum item1 ∧ Description item2 = Description item1)
    as (HT2 & HI2 & HP2 & HR2 & HE2 & HD2).
  { by apply defaultTag_Ok in Hdefault as [->|(value & -> & _)]. }
  rewrite HT2, HI2, HP2, HR2, HE2, HD2.
  apply enumTag_values in Henum
    as [[Hv ->]|(Hv & Hk & values & -> & Hlen & Hvalues)].
  - split_and!; try done. left. by rewrite HE.
  - split_and!; try done. right. split; [done|]. by exists values.
Qed.

(** X6. The tags of a field change nothing of the schema reflected for
    its type but the description, the enum and the default: the property
    stored under the field's name has the kind, the items, the properties
    and the required list of that schema, and the description is the
    [description] tag when there is one. *)
Theorem X6_tags_keep_the_shape rf jsonTag properties requiredFields
        properties' requiredFields' :
  reflectField ParseFloat rf jsonTag properties requiredFields
  = Ok (properties', requiredFields') →
  ∃ item item',
    byType rf = Ok item
    ∧ properties' !! (fieldName (field rf) jsonTag).1 = Some item'
    ∧ Type_ item' = Type_ item ∧ Items item' = Items item
    ∧ Properties item' = Properties item ∧ Required item' = Required item
    ∧ Description item'
      = (if String.eqb (reflect.Get (reflect.Tag (field rf)) "description") ""
         then Description item
         else reflect.Get (reflect.Tag (field rf)) "description").
Proof.
  intros Hfield.
  apply reflectField_base in Hfield
    as (item & item' & Hitem & -> & HT & HI & HP & HR & HD & _).
  exists item, item'. rewrite lookup_insert_eq. by split_and!.
Qed.

End kinds.

Section sound.

Variable ParseFloat : string → option strconv.float64.

Lemma nodesSound_children p :
  nodesSound p
  ↔ (wellKinded p ∧ enumMatches p)
    ∧ (∀ items, Items p = Some items → nodesSound items)
    ∧ (∀ m name c, Properties p = Some m → m !! name = Some c → nodesSound c).
Proof.
  split.
  - intros Hp. split; [apply Hp; constructor|]. split.
    + intros items Hitems q Hq. apply Hp. by eapply node_items.
    + intros m name c Hm Hc q Hq. apply Hp. by eapply node_property.
  - intros (Hroot & Hitems & Hprops) q Hq.
    inversion Hq; subst; [done|by eapply Hitems|by eapply Hprops].
Qed.

Lemma nodesSound_leaf ty :
  ty ≠ Array → ty ≠ Null → nodesSound (newProperty ty).
Proof.
  intros Harray Hnull. apply nodesSound_children. split_and!; try done.
  unfold wellKinded. cbn. by destruct ty.
Qed.

Lemma reflectField_sound rf jsonTag properties requiredFields properties' requiredFields' :
  typeSound rf →
  reflectField ParseFloat rf jsonTag properties requiredFields
  = Ok (properties', requiredFields') →
  map_Forall (λ _, nodesSound) properties →
  map_Forall (λ _, nodesSound) properties'.
Proof.
  intros Hrf Hfield Hprops.
  apply reflectField_base in Hfield
    as (item & item' & Hitem & -> & HT & HI & HP & HR & _ & Henum).
  destruct (Hrf item Hitem) as [Hsound Hkind].
  apply map_Forall_insert_2; [|done]. clear Hprops.
  apply nodesSound_children in Hsound as ([Hwell Hmatch] & Hitems & Hchildren).
  apply nodesSound_children. rewrite HI, HP. split_and!; [| |done..].
  - unfold wellKinded in *. by rewrite HT, HI, HP, HR.
  - unfold enumMatches in *. destruct Henum as [[_ ->]|(Hk & values & -> & Hlen & Hvalues)].
    + by rewrite HT.
    + rewrite HT, (Hkind Hk). cbn [Type_ newProperty]. split; [|done].
      intros ->. cbn [length] in Hlen.
      by destruct (strings.Split _ ",") eqn:Hsplit; [apply Split_nonempty in Hsplit|].
Qed.

Lemma fieldsLoop_sound fields :
  Forall typeSound fields →
  ∀ properties requiredFields anonymousFields properties' requiredFields' anonymousFields',
    fieldsLoop ParseFloat fields properties requiredFields anonymousFields
    = Ok (properties', requiredFields', anonymousFields') →
    map_Forall (λ _, nodesSound) properties →
    map_Forall (λ _, nodesSound) properties'.
Proof.
  induction 1 as [|rf fields Hrf _ IH]; intros properties requiredFields
    anonymousFields properties' requiredFields' anonymousFields'.
  - by intros [= <- <- <-].
  - cbn [fieldsLoop].
    destruct (reflect.Anonymous (field rf)); [apply IH|].
    destruct (negb (reflect.IsExported (field rf))); [apply IH|].
    destruct (String.eqb _ "-"); [apply IH|].
    destruct (reflectField _ _ _ _ _) as [[p r]| |] eqn:Hfield; [|done..].
    cbn [mbind result_bind]. intros Hrest Hprops.
    apply (IH _ _ _ _ _ _ Hrest). by eapply reflectField_sound.
Qed.

Lemma anonymousLoop_sound anonymousFields :
  Forall objectSound anonymousFields →
  ∀ properties requiredFields properties' requiredFields',
    anonymousLoop anonymousFields properties requiredFields
    = Ok (properties', requiredFields') →
    map_Forall (λ _, nodesSound) properties →
    map_Forall (λ _, nodesSound) properties'.
Proof.
  induction 1 as [|rf rest Hrf _ IH];
    intros properties requiredFields properties' requiredFields'.
  - by intros [= <- <-].
  - cbn [anonymousLoop].
    destruct (byObject rf) as [object| |] eqn:Hobject; [|done..].
    cbn [mbind result_bind]. rewrite mergeLoop_rangeOf.
    destruct (mergeEmbedded _ _) as [merged| |] eqn:Hmerge; [|done..].
    cbn [mbind result_bind]. intros Hrest Hprops.
    apply (IH _ _ _ _ Hrest).
    apply mergeEmbedded_Ok in Hmerge as [-> _].
    apply map_Forall_union_2; [|done].
    intros name c Hc.
    destruct (Properties object) as [m|] eqn:Hm; cbn in Hc;
      [|by rewrite lookup_empty in Hc].
    pose proof (Hrf object Hobject) as Hsound.
    apply nodesSound_children in Hsound as (_ & _ & Hchildren).
    by eapply Hchildren.
Qed.

Lemma objectOf_sound fields object :
  Forall typeSound fields →
  Forall objectSound fields →
  objectOf ParseFloat fields = Ok object →
  nodesSound object.
Proof.
  intros Htypes Hobjects. unfold objectOf.
  destruct (fieldsLoop _ _ _ _ _) as [[[p0 r0] a0]| |] eqn:Hfirst; [|done..].
  cbn [mbind result_bind].
  destruct (anonymousLoop _ _ _) as [[p1 r1]| |] eqn:Hsecond; [|done..].
  cbn [mbind result_bind]. intros [= <-].
  apply nodesSound_children. cbn. split_and!; [done|done|done|].
  intros m name c [= <-] Hc. revert name c Hc.
  change (map_Forall (λ _, nodesSound) p1).
  eapply anonymousLoop_sound; [|exact Hsecond|].
  - rewrite (fieldsLoop_anonymous _ _ _ _ _ _ _ Hfirst).
    rewrite Forall_forall in Hobjects |- *. intros rf Hrf. apply Hobjects.
    apply list_elem_of_In in Hrf. apply List.filter_In in Hrf as [Hrf _].
    by apply list_elem_of_In.
  - eapply fieldsLoop_sound; [exact Htypes|exact Hfirst|].
    apply map_Forall_empty.
Qed.

Lemma reflected_sound fields :
  Forall (λ f, (∀ item, reflectSchemaByType ParseFloat (reflect.Type_ f) = Ok item →
                        nodesSound item)
               ∧ (∀ object,
                    reflectSchemaByObject ParseFloat (reflect.Type_ f) = Ok object →
                    nodesSound object)) fields →
  Forall typeSound (reflected ParseFloat fields)
  ∧ Forall objectSound (reflected ParseFloat fields).
Proof.
  intros IH. rewrite Forall_forall in IH.
  split; apply Forall_forall; intros rf (f & -> & Hf)%list_elem_of_fmap.
  - intros item Hitem. cbn in *. split; [by apply (proj1 (IH f Hf))|].
    intros Hk. rewrite reflectSchemaByType_kindType in Hitem by done.
    by injection Hitem as <-.
  - intros object Hobject. cbn in *. by apply (proj2 (IH f Hf)).
Qed.

Lemma reflect_sound t :
  (∀ item, reflectSchemaByType ParseFloat t = Ok item → nodesSound item)
  ∧ (∀ object, reflectSchemaByObject ParseFloat t = Ok object → nodesSound object).
Proof.
  induction t as [|w|w| | | | | | | | | | |len e IH|e IH|e IH|k e _ _|p n s fields IH]
    using reflect.type_fields_ind; (split; [|try done]); try done;
    try (intros item [= <-]; by apply nodesSound_leaf).
  - intros item. cbn [reflectSchemaByType].
    destruct (reflectSchemaByType ParseFloat e) as [items| |] eqn:He; [|done..].
    intros [= <-]. apply nodesSound_children. cbn.
    split; [done|]. split; [|done]. intros ? [= <-]. by apply (proj1 IH).
  - intros item. cbn [reflectSchemaByType].
    destruct (reflectSchemaByType ParseFloat e) as [items| |] eqn:He; [|done..].
    intros [= <-]. apply nodesSound_children. cbn.
    split; [done|]. split; [|done]. intros ? [= <-]. by apply (proj1 IH).
  - apply (proj1 IH).
  - intros item. cbn [reflectSchemaByType]. case_decide; [done|].
    intros [= <-]. by apply nodesSound_leaf.
  - intros item. rewrite reflectSchemaByType_Struct, reflectSchemaByObject_Struct.
    destruct (objectOf _ _) as [object| |] eqn:Hobject; [|done..].
    cbn [mbind result_bind]. intros [= <-].
    destruct (reflected_sound fields IH) as [Htypes Hobjects].
    pose proof (objectOf_sound _ _ Htypes Hobjects Hobject) as Hsound.
    unfold objectOf in Hobject.
    destruct (fieldsLoop _ _ _ _ _) as [[[p0 r0] a0]| |]; [|done..].
    cbn [mbind result_bind] in Hobject.
    destruct (anonymousLoop _ _ _) as [[p1 r1]| |]; [|done..].
    cbn [mbind result_bind] in Hobject. by injection Hobject as <-.
  - intros object. rewrite reflectSchemaByObject_Struct. intros Hobject.
    destruct (reflected_sound fields IH) as [Htypes Hobjects].
    by eapply objectOf_sound.
Qed.

(** X7. In the schema derived for any type, every node carries what its
    kind asks for: an array node has its items and neither properties nor
    a required list, a string, integer, number or boolean node has no
    items, no properties and no required list, an object node has no
    items, and no node is of kind [null]. *)
Theorem X7_nodes_well_kinded :
  (∀ t item q,
     reflectSchemaByType ParseFloat t = Ok item → node item q → wellKinded q)
  ∧ (∀ t object q,
       reflectSchemaByObject ParseFloat t = Ok object → node object q →
       wellKinded q).
Proof.
  split; intros t p q Hp Hq.
  - by apply (proj1 (reflect_sound t) p Hp q Hq).
  - by apply (proj2 (reflect_sound t) p Hp q Hq).
Qed.

(** X8. In the schema derived for any type, an enum list is set only on
    nodes of kind string, integer, number or boolean; it is never empty
    and each of its values is of the node's kind: strings under string,
    [int] and [uint64] values within their ranges under integer,
    [float64] values under number and booleans under boolean. *)
Theorem X8_enum_values_of_kind :
  (∀ t item q values,
     reflectSchemaByType ParseFloat t = Ok item → node item q →
     Enum q = Some values →
     values ≠ [] ∧ Forall (valueOfKind (Type_ q)) values
     ∧ Type_ q ≠ ObjectT ∧ Type_ q ≠ Array ∧ Type_ q ≠ Null)
  ∧ (∀ t object q values,
       reflectSchemaByObject ParseFloat t = Ok object → node object q →
       Enum q = Some values →
       values ≠ [] ∧ Forall (valueOfKind (Type_ q)) values
       ∧ Type_ q ≠ ObjectT ∧ Type_ q ≠ Array ∧ Type_ q ≠ Null).
Proof.
  assert (∀ q values,
            enumMatches q → Enum q = Some values →
            values ≠ [] ∧ Forall (valueOfKind (Type_ q)) values
            ∧ Type_ q ≠ ObjectT ∧ Type_ q ≠ Array ∧ Type_ q ≠ Null) as Hmatch.
  { intros q values Hq Hvalues. unfold enumMatches in Hq. rewrite Hvalues in Hq.
    destruct Hq as [Hne Hall]. split; [done|]. split; [done|].
    destruct values as [|v values]; [done|].
    apply Forall_cons in Hall as [Hv _].
    by destruct (Type_ q), v. }
  split; intros t p q values Hp Hq; apply Hmatch.
  - by apply (proj1 (reflect_sound t) p Hp q Hq).
  - by apply (proj2 (reflect_sound t) p Hp q Hq).
Qed.

End sound.

(** ** The names and the required list of a derived object *)

Section names.

Variable ParseFloat : string → option strconv.float64.

Lemma fieldsLoop_names fields :
  ∀ properties requiredFields anonymousFields properties' requiredFields' anonymousFields',
    fieldsLoop ParseFloat fields properties requiredFields anonymousFields
    = Ok (properties', requiredFields', anonymousFields') →
    (∀ name,
       is_Some (properties' !! name)
       ↔ is_Some (properties !! name)
         ∨ ∃ rf, rf ∈ fields ∧ explicit (field rf) = true
                 ∧ externalName (field rf) = name)
    ∧ requiredFields'
      = requiredFields ++ List.flat_map (λ rf, requiredEntry (field rf)) fields.
Proof.
  induction fields as [|rf fields IH]; intros properties requiredFields
    anonymousFields properties' requiredFields' anonymousFields'.
  - intros [= <- <- <-]. split; [|by rewrite app_nil_r].
    intros name. split; [by left|]. intros [?|(rf & Hrf%elem_of_nil & _)]; done.
  - cbn [fieldsLoop List.flat_map].
    assert (explicit (field rf) = false →
            fieldsLoop ParseFloat fields properties requiredFields
              (if reflect.Anonymous (field rf) then anonymousFields ++ [rf]
               else anonymousFields)
            = Ok (properties', requiredFields', anonymousFields') →
            (∀ name,
               is_Some (properties' !! name)
               ↔ is_Some (properties !! name)
                 ∨ ∃ rf', rf' ∈ rf :: fields ∧ explicit (field rf') = true
                          ∧ externalName (field rf') = name)
            ∧ requiredFields'
              = requiredFields
                ++ requiredEntry (field rf)
                ++ List.flat_map (λ rf, requiredEntry (field rf)) fields) as Hskip.
    { intros Hexplicit Hrest. apply IH in Hrest as [Hnames ->].
      assert (requiredEntry (field rf) = []) as ->
          by (unfold requiredEntry; by rewrite Hexplicit).
      split; [|done].
      intros name. rewrite Hnames. split.
      - intros [?|(rf' & Hin & Hrf')]; [by left|right].
        exists rf'. split; [by right|done].
      - intros [?|(rf' & Hin & Hex & Hrf')]; [by left|right].
        apply elem_of_cons in Hin as [->|Hin]; [congruence|].
        by exists rf'. }
    unfold explicit in Hskip.
    destruct (reflect.Anonymous (field rf)) eqn:Hanon; [by apply Hskip|].
    destruct (reflect.IsExported (field rf)) eqn:Hexp; cbn [negb];
      [|by apply Hskip].
    destruct (String.eqb _ "-") eqn:Hjson; [by apply Hskip|]. clear Hskip.
    destruct (reflectField _ _ _ _ _) as [[p r]| |] eqn:Hfield; [|done..].
    cbn [mbind result_bind]. intros Hrest. apply IH in Hrest as [Hnames ->].
    apply reflectField_Ok in Hfield
      as (item & required & item1 & item2 & _ & Hreq & _ & _ & -> & ->).
    rewrite fieldName_externalName in Hreq, Hnames |- *. cbn [fst snd] in *.
    rewrite requiredTag_requiredness in Hreq.
    assert (explicit (field rf) = true) as Hexplicit
        by (unfold explicit; by rewrite Hanon, Hexp, Hjson).
    split.
    + intros name. rewrite Hnames, lookup_insert_is_Some'. split.
      * intros [[<-|?]|(rf' & Hin & Hrf')]; [right|by left|right].
        -- exists rf. split; [by left|done].
        -- exists rf'. split; [by right|done].
      * intros [?|(rf' & Hin & Hex & Hrf')]; [by left; right|].
        apply elem_of_cons in Hin as [->|Hin]; [by left; left|].
        right. by exists rf'.
    + assert (requiredEntry (field rf)
              = if required then [externalName (field rf)] else []) as ->.
      { unfold requiredEntry. rewrite Hexplicit.
        destruct (requiredness (field rf)) as [[]|]; cbn [orErr] in Hreq; try done;
          by injection Hreq as <-. }
      destruct required; by rewrite <- ?app_assoc.
Qed.

Lemma embedAll_names embedded :
  ∀ properties requiredFields properties' requiredFields',
    embedAll ParseFloat embedded (properties, requiredFields)
    = Ok (properties', requiredFields') →
    (∀ name,
       is_Some (properties' !! name)
       ↔ is_Some (properties !! name)
         ∨ ∃ f object m,
             f ∈ embedded
             ∧ reflectSchemaByObject ParseFloat (reflect.Type_ f) = Ok object
             ∧ Properties object = Some m ∧ is_Some (m !! name))
    ∧ requiredFields'
      = requiredFields ++ List.flat_map (embeddedRequired ParseFloat) embedded.
Proof.
  induction embedded as [|f rest IH];
    intros properties requiredFields properties' requiredFields'.
  - intros [= <- <-]. split; [|by rewrite app_nil_r].
    intros name. split; [by left|].
    intros [?|(f & object & m & Hf%elem_of_nil & _)]; done.
  - cbn [embedAll List.flat_map]. unfold embedOne, embeddedRequired at 1.
    destruct (reflectSchemaByObject _ _) as [object| |] eqn:Hobject; [|done..].
    cbn [mbind result_bind fst snd].
    destruct (mergeEmbedded _ _) as [merged| |] eqn:Hmerge; [|done..].
    cbn [mbind result_bind]. intros Hrest. apply IH in Hrest as [Hnames ->].
    apply mergeEmbedded_Ok in Hmerge as [-> _].
    split; [|by rewrite <- app_assoc].
    intros name. rewrite Hnames, lookup_union_is_Some. split.
    + intros [[Hm|?]|(f' & object' & m' & Hin & Hf')]; [right|by left|right].
      * destruct (Properties object) as [m|] eqn:Hprops; cbn in Hm;
          [|by rewrite lookup_empty in Hm; destruct Hm].
        exists f, object, m. split; [by left|done].
      * exists f', object', m'. split; [by right|done].
    + intros [?|(f' & object' & m' & Hin & Hobject' & Hprops & Hm)]; [by left; right|].
      apply elem_of_cons in Hin as [->|Hin].
      * left. left. rewrite Hobject in Hobject'. injection Hobject' as <-.
        by rewrite Hprops.
      * right. by exists f', object', m'.
Qed.

(** X9. The property names of the object derived for a struct are the
    external names of its explicit fields together with the property
    names of the objects derived for the types of its embedded fields,
    and nothing else; and its required list is, in declaration order, the
    names of the explicit fields that are required followed by the
    required lists of the embedded fields' objects. *)
Theorem X9_names_and_required p n s fields object :
  reflectSchemaByObject ParseFloat (reflect.TStruct p n s fields) = Ok object →
  ∃ m,
    Properties object = Some m
    ∧ (∀ name,
         is_Some (m !! name)
         ↔ (∃ f, f ∈ fields ∧ explicit f = true ∧ externalName f = name)
           ∨ ∃ f embedded m',
               f ∈ fields ∧ reflect.Anonymous f = true
               ∧ reflectSchemaByObject ParseFloat (reflect.Type_ f) = Ok embedded
               ∧ Properties embedded = Some m' ∧ is_Some (m' !! name))
    ∧ Required object
      = Some (List.flat_map requiredEntry fields
              ++ List.flat_map (embeddedRequired ParseFloat)
                   (List.filter reflect.Anonymous fields)).
Proof.
  rewrite reflectSchemaByObject_Struct. unfold objectOf.
  destruct (fieldsLoop _ _ _ _ _) as [[[p0 r0] a0]| |] eqn:Hfirst; [|done..].
  cbn [mbind result_bind].
  pose proof (fieldsLoop_anonymous _ _ _ _ _ _ _ Hfirst) as ->.
  rewrite (reflected_filter ParseFloat reflect.Anonymous), anonymousLoop_embedAll.
  destruct (embedAll _ _ _) as [[p1 r1]| |] eqn:Hsecond; [|done..].
  cbn [mbind result_bind]. intros [= <-]. exists p1. split; [done|].
  apply fieldsLoop_names in Hfirst as [Hnames0 ->].
  apply embedAll_names in Hsecond as [Hnames1 ->]. cbn [app Required]. split.
  - intros name. rewrite Hnames1, Hnames0, lookup_empty. split.
    + intros [[[? [=]]|(rf & Hrf & Hex & Hname)]|(f & e & m' & Hf & He & Hm)].
      * left. apply list_elem_of_fmap in Hrf as (f & -> & Hf). by exists f.
      * right. apply list_elem_of_In, List.filter_In in Hf as [Hf Hanon].
        exists f, e, m'. by rewrite list_elem_of_In.
    + intros [(f & Hf & Hex & Hname)|(f & e & m' & Hf & Hanon & He & Hm)].
      * left. right. exists (mkReflected f
                               (reflectSchemaByType ParseFloat (reflect.Type_ f))
                               (reflectSchemaByObject ParseFloat (reflect.Type_ f))).
        split; [|done]. apply list_elem_of_fmap. by exists f.
      * right. exists f, e, m'. split; [|done].
        apply list_elem_of_In, List.filter_In. by rewrite <- list_elem_of_In.
  - f_equal. f_equal. unfold reflected. by rewrite List.flat_map_concat_map,
      List.map_map, <- List.flat_map_concat_map.
Qed.

End names.

(** ** The entry point and its cache *)

Section entry.

Variable ParseFloat : string → option strconv.float64.

Lemma resolveStruct_underlying t :
  resolveStruct t
  = if decide (reflect.KindOf (underlying t) = reflect.Struct)
    then Ok (underlying t)
    else Err (InvalidType (underlying t)).
Proof.
  induction t as [|w|w| | | | | | | | | | | | |e IH| |]
    using reflect.type_fields_ind; try done; by destruct w.
Qed.

(** X10. The entry point looks through any number of pointers: a call on
    a type and a call on the type under its pointers give the same result
    and the same cache; and when that type is not a struct the call fails
    with the invalid-type error naming it and leaves the cache as it
    was. *)
Theorem X10_entry_unwraps_pointers t schemaCache :
  generateSchemaFromReqStruct ParseFloat (Some t) schemaCache
  = generateSchemaFromReqStruct ParseFloat (Some (underlying t)) schemaCache
  ∧ (reflect.KindOf (underlying t) ≠ reflect.Struct →
     generateSchemaFromReqStruct ParseFloat (Some t) schemaCache
     = (Err (InvalidType (underlying t)), schemaCache)).
Proof.
  assert (underlying (underlying t) = underlying t) as Hidem.
  { induction t using reflect.type_fields_ind; done. }
  unfold generateSchemaFromReqStruct.
  rewrite (resolveStruct_underlying t), (resolveStruct_underlying (underlying t)), Hidem.
  split; [done|]. intros Hkind. by case_decide.
Qed.

(** One call keeps what the cache holds. *)
Lemma generate_keeps v schemaCache key schema :
  pkg.Load schemaCache key = Some schema →
  pkg.Load (generateSchemaFromReqStruct ParseFloat v schemaCache).2 key = Some schema.
Proof.
  intros Hkey. unfold generateSchemaFromReqStruct.
  destruct v as [t|]; [|done].
  destruct (resolveStruct t) as [u| |]; [|done..].
  destruct (pkg.Load schemaCache (getTypeUUID u)) as [cached|] eqn:Hcached; [done|].
  destruct (reflectSchemaByObject ParseFloat u) as [property| |]; [|done..].
  cbn. unfold pkg.Load, pkg.Store, pkg.SyncMap in *.
  rewrite lookup_insert_ne; [done|].
  intros <-. by rewrite Hcached in Hkey.
Qed.

(** X11. A cache entry is written once: whatever calls follow, on
    whatever values, the schema stored under a key stays the schema under
    that key. *)
Theorem X11_cache_entries_persist vs schemaCache key schema :
  pkg.Load schemaCache key = Some schema →
  pkg.Load (afterCalls ParseFloat vs schemaCache) key = Some schema.
Proof.
  revert schemaCache. induction vs as [|v vs IH]; intros schemaCache Hkey; [done|].
  cbn [afterCalls]. apply IH. by apply generate_keeps.
Qed.

(** X12. The cache is keyed by the identity string alone: once a call on
    a type has returned a schema, a call on any type with the same
    identity string, the same type among them, returns that schema from
    the cache, whatever its own fields are, and leaves the cache as it
    is. *)
Theorem X12_cache_hit_by_identity t1 t2 u1 u2 schemaCache schema schemaCache' :
  resolveStruct t1 = Ok u1 →
  resolveStruct t2 = Ok u2 →
  getTypeUUID u1 = getTypeUUID u2 →
  generateSchemaFromReqStruct ParseFloat (Some t1) schemaCache
  = (Ok schema, schemaCache') →
  generateSchemaFromReqStruct ParseFloat (Some t2) schemaCache'
  = (Ok schema, schemaCache').
Proof.
  intros Hu1 Hu2 Huid. unfold generateSchemaFromReqStruct. rewrite Hu1, Hu2, <- Huid.
  destruct (pkg.Load schemaCache (getTypeUUID u1)) as [cached|] eqn:Hcached.
  - intros [= <- <-]. by rewrite Hcached.
  - destruct (reflectSchemaByObject ParseFloat u1) as [property| |]; [|done..].
    intros [= <- <-]. unfold pkg.Load, pkg.Store, pkg.SyncMap in *.
    by rewrite lookup_insert_eq.
Qed.

Lemma generate_rooted v schemaCache :
  map_Forall (λ _, rooted) schemaCache →
  map_Forall (λ _, rooted) (generateSchemaFromReqStruct ParseFloat v schemaCache).2
  ∧ ∀ schema,
      (generateSchemaFromReqStruct ParseFloat v schemaCache).1 = Ok schema →
      rooted schema.
Proof.
  intros Hcache. unfold generateSchemaFromReqStruct.
  destruct v as [t|]; [|done].
  destruct (resolveStruct t) as [u| |]; [|done..].
  unfold pkg.Load, pkg.Store, pkg.SyncMap in *.
  destruct (schemaCache !! getTypeUUID u) as [cached|] eqn:Hcached.
  - split; [done|]. intros schema [= <-]. by eapply Hcache.
  - destruct (reflectSchemaByObject ParseFloat u) as [property| |] eqn:Hobject;
      [|done..].
    apply reflectSchemaByObject_namesDeclared in Hobject as (m & r & Hm & Hr & _).
    assert (rooted (mkInputSchema Object (Properties property) (Required property)))
      as Hrooted by (unfold rooted; cbn; by rewrite Hm, Hr).
    split; [by apply map_Forall_insert_2|]. by intros schema [= <-].
Qed.

(** X13. Every schema the entry point returns has its properties and its
    required list declared, possibly empty: so it is for the schemas it
    derives, and so it stays for the cached ones through any sequence of
    calls from a cache of such schemas, the empty one among them. *)
Theorem X13_returned_schemas_rooted vs v schemaCache schema :
  map_Forall (λ _, rooted) schemaCache →
  (generateSchemaFromReqStruct ParseFloat v (afterCalls ParseFloat vs schemaCache)).1
  = Ok schema →
  rooted schema.
Proof.
  revert schemaCache. induction vs as [|v' vs IH]; intros schemaCache Hcache.
  - by apply generate_rooted.
  - cbn [afterCalls]. apply IH. by apply generate_rooted.
Qed.

End entry.

(** ** Names from the naming tag, and the length of an enum list *)

Section naming.

Variable ParseFloat : string → option strconv.float64.

Lemma HasSuffix_app name suffix :
  strings.HasSuffix (name ++ suffix)%string suffix = true.
Proof.
  induction name as [|c name IH].
  - change ("" ++ suffix)%string with suffix. destruct suffix as [|c s]; [done|].
    cbn [strings.HasSuffix]. by rewrite String.eqb_refl.
  - change (String.String c name ++ suffix)%string
      with (String.String c (name ++ suffix)%string).
    cbn [strings.HasSuffix]. rewrite IH. by destruct (String.eqb _ _).
Qed.

Lemma HasSuffix_inv s suffix :
  strings.HasSuffix s suffix = true → ∃ name, s = (name ++ suffix)%string.
Proof.
  induction s as [|c s IH].
  - cbn [strings.HasSuffix].
    destruct (String.eqb_spec "" suffix) as [<-|]; [|by intros [=]]. by exists "".
  - cbn [strings.HasSuffix].
    destruct (String.eqb_spec (String.String c s) suffix) as [<-|_].
    + by exists "".
    + intros [name ->]%IH. by exists (String.String c name).
Qed.

Lemma TrimSuffix_app name suffix :
  strings.TrimSuffix (name ++ suffix)%string suffix = name.
Proof.
  unfold strings.TrimSuffix. rewrite HasSuffix_app.
  replace (String.length (name ++ suffix) - String.length suffix)
    with (String.length name).
  2:{ assert (String.length (name ++ suffix)
              = String.length name + String.length suffix) as ->; [|lia].
      induction name as [|c name IH]; [done|].
      change (String.String c name ++ suffix)%string
        with (String.String c (name ++ suffix)%string).
      cbn [String.length]. lia. }
  induction name as [|c name IH].
  - by destruct suffix.
  - change (String.String c name ++ suffix)%string
      with (String.String c (name ++ suffix)%string).
    cbn [String.length String.substring]. by rewrite IH.
Qed.

(** X14. The external name and the computed requiredness of a field come
    from its naming tag by the suffix [,omitempty] alone: a naming tag
    [name,omitempty] gives the name [name], the empty name for
    [,omitempty] itself, and a field that is optional by default; any
    other naming tag is the name as it stands, further options such as
    [,string] included, and the field is required by default. *)
Theorem X14_name_from_naming_tag f :
  (∀ name,
     namingTag f = (name ++ ",omitempty")%string →
     fieldName f (reflect.Get (reflect.Tag f) "json") = (name, false))
  ∧ ((∀ name, namingTag f ≠ (name ++ ",omitempty")%string) →
     fieldName f (reflect.Get (reflect.Tag f) "json") = (namingTag f, true)).
Proof.
  rewrite fieldName_externalName. unfold externalName. split.
  - intros name ->. by rewrite TrimSuffix_app, HasSuffix_app.
  - intros Hno. destruct (strings.HasSuffix (namingTag f) ",omitempty") eqn:Hsuffix.
    + apply HasSuffix_inv in Hsuffix as [name Hname]. by destruct (Hno name).
    + unfold strings.TrimSuffix. by rewrite Hsuffix.
Qed.

Lemma Split_length s : length (strings.Split s ",") = S (commas s).
Proof.
  unfold commas. induction s as [|c s IH]; [done|].
  cbn [strings.Split list_ascii_of_string List.filter].
  rewrite (Ascii.eqb_sym "," c).
  destruct (Ascii.eqb c ","); cbn [length]; [by rewrite IH|].
  rewrite <- IH. by destruct (strings.Split s ",").
Qed.

(** X15. A non-empty [enum] tag that converts gives an enum list with
    one value more than the tag has commas: no piece between two commas,
    before the first or after the last is dropped, and each of them has to
    convert. *)
Theorem X15_enum_length t (v : string) item item' :
  v ≠ "" →
  enumTag ParseFloat t v item = Ok item' →
  ∃ values, Enum item' = Some values ∧ length values = S (commas v).
Proof.
  intros Hv Henum.
  apply enumTag_values in Henum as [[? _]|(_ & _ & values & -> & Hlen & _)]; [done|].
  exists values. split; [done|]. by rewrite Hlen, Split_length.
Qed.

(** X16. Forcing the kind of the object reflected for a struct changes
    nothing: on a struct type [reflectSchemaByType] gives exactly what
    [reflectSchemaByObject] gives, error or schema. *)
Theorem X16_struct_by_type_is_by_object p n s fields :
  reflectSchemaByType ParseFloat (reflect.TStruct p n s fields)
  = reflectSchemaByObject ParseFloat (reflect.TStruct p n s fields).
Proof.
  rewrite reflectSchemaByType_Struct, reflectSchemaByObject_Struct. unfold objectOf.
  destruct (fieldsLoop _ _ _ _ _) as [[[p0 r0] a0]| |]; [|done..].
  cbn [mbind result_bind].
  by destruct (anonymousLoop _ _ _) as [[p1 r1]| |].
Qed.

End naming.

(** ** The further properties on examples *)

Lemma X6_tags_keep_the_shape_witness :
  reflectField noFloat
    (mkReflected (examples.exported "A" reflect.TString [("description", "the a")])
                 (reflectSchemaByType noFloat reflect.TString)
                 (reflectSchemaByObject noFloat reflect.TString))
    "" ∅ []
  = Ok (<["A" := mkProperty String "the a" None None None None Nil]> ∅, ["A"])
  ∧ ∃ item item',
      reflectSchemaByType noFloat reflect.TString = Ok item
      ∧ (<["A" := mkProperty String "the a" None None None None Nil]> ∅
         : gmap string Property) !! "A" = Some item'
      ∧ Type_ item' = Type_ item ∧ Items item' = Items item
      ∧ Properties item' = Properties item ∧ Required item' = Required item
      ∧ Description item' = "the a".
Proof.
  assert (reflectField noFloat
            (mkReflected
               (examples.exported "A" reflect.TString [("description", "the a")])
               (reflectSchemaByType noFloat reflect.TString)
               (reflectSchemaByObject noFloat reflect.TString))
            "" ∅ []
          = Ok (<["A" := mkProperty String "the a" None None None None Nil]> ∅, ["A"]))
    as Hfield by (vm_compute; reflexivity).
  split; [exact Hfield|].
  exact (X6_tags_keep_the_shape noFloat _ _ _ _ _ _ Hfield).
Defined.

Lemma X7_nodes_well_kinded_witness :
  reflectSchemaByType noFloat (reflect.TSlice reflect.TString)
  = Ok (setItems (newProperty Array) (newProperty String))
  ∧ node (setItems (newProperty Array) (newProperty String))
         (setItems (newProperty Array) (newProperty String))
  ∧ wellKinded (setItems (newProperty Array) (newProperty String)).
Proof.
  split; [reflexivity|]. split; [apply node_here|].
  exact (proj1 (X7_nodes_well_kinded noFloat)
           (reflect.TSlice reflect.TString) _ _ eq_refl (node_here _)).
Defined.

Lemma X8_enum_values_of_kind_witness :
  reflectSchemaByObject noFloat examples.Level
  = Ok (mkProperty ObjectT "" None
          (Some (<["L" := mkProperty Integer "" None None None
                            (Some [AInt 1; AInt 2; AInt 3]) (AInt 2)]> ∅))
          (Some []) None Nil)
  ∧ [AInt 1; AInt 2; AInt 3] ≠ []
  ∧ Forall (valueOfKind Integer) [AInt 1; AInt 2; AInt 3]
  ∧ Integer ≠ ObjectT ∧ Integer ≠ Array ∧ Integer ≠ Null.
Proof.
  assert (reflectSchemaByObject noFloat examples.Level
          = Ok (mkProperty ObjectT "" None
                  (Some (<["L" := mkProperty Integer "" None None None
                                    (Some [AInt 1; AInt 2; AInt 3]) (AInt 2)]> ∅))
                  (Some []) None Nil)) as Hobject by (vm_compute; reflexivity).
  split; [exact Hobject|].
  refine (proj2 (X8_enum_values_of_kind noFloat) examples.Level _
            (mkProperty Integer "" None None None
               (Some [AInt 1; AInt 2; AInt 3]) (AInt 2))
            [AInt 1; AInt 2; AInt 3] Hobject _ eq_refl).
  eapply node_property; [reflexivity|apply lookup_insert_eq|apply node_here].
Defined.

Lemma X9_names_and_required_witness :
  reflectSchemaByObject noFloat examples.Outer = Ok examples.innerSchema
  ∧ ∃ m,
      Properties examples.innerSchema = Some m
      ∧ (∀ name,
           is_Some (m !! name)
           ↔ (∃ f,
                f ∈ [reflect.mkStructField "inner" "main" examples.inner [] true]
                ∧ explicit f = true ∧ externalName f = name)
             ∨ ∃ f embedded m',
                 f ∈ [reflect.mkStructField "inner" "main" examples.inner [] true]
                 ∧ reflect.Anonymous f = true
                 ∧ reflectSchemaByObject noFloat (reflect.Type_ f) = Ok embedded
                 ∧ Properties embedded = Some m' ∧ is_Some (m' !! name))
      ∧ Required examples.innerSchema
        = Some (List.flat_map requiredEntry
                  [reflect.mkStructField "inner" "main" examples.inner [] true]
                ++ List.flat_map (embeddedRequired noFloat)
                     (List.filter reflect.Anonymous
                        [reflect.mkStructField "inner" "main" examples.inner [] true])).
Proof.
  assert (reflectSchemaByObject noFloat examples.Outer = Ok examples.innerSchema)
    as Hobject by (vm_compute; reflexivity).
  split; [exact Hobject|].
  exact (X9_names_and_required noFloat "main" "Outer" "main.Outer" _ _ Hobject).
Defined.

Lemma X10_entry_unwraps_pointers_witness :
  reflect.KindOf (underlying (reflect.TPtr (reflect.TPtr reflect.TString)))
  ≠ reflect.Struct
  ∧ generateSchemaFromReqStruct noFloat
      (Some (reflect.TPtr (reflect.TPtr reflect.TString))) ∅
    = (Err (InvalidType reflect.TString), ∅).
Proof.
  split; [done|].
  exact (proj2 (X10_entry_unwraps_pointers noFloat
                  (reflect.TPtr (reflect.TPtr reflect.TString)) ∅) ltac:(done)).
Defined.

Lemma X11_cache_entries_persist_witness :
  pkg.Load (pkg.Store ∅ "main.inner" (mkInputSchema Object None None)) "main.inner"
  = Some (mkInputSchema Object None None)
  ∧ pkg.Load
      (afterCalls noFloat [Some examples.inner; None; Some examples.Outer]
         (pkg.Store ∅ "main.inner" (mkInputSchema Object None None)))
      "main.inner"
    = Some (mkInputSchema Object None None).
Proof.
  assert (pkg.Load (pkg.Store ∅ "main.inner" (mkInputSchema Object None None))
                   "main.inner"
          = Some (mkInputSchema Object None None)) as Hkey
      by (vm_compute; reflexivity).
  split; [exact Hkey|].
  exact (X11_cache_entries_persist noFloat _ _ _ _ Hkey).
Defined.

Lemma X12_cache_hit_by_identity_witness :
  resolveStruct (reflect.TPtr examples.inner) = Ok examples.inner
  ∧ resolveStruct (reflect.TStruct "main" "inner" "struct {}" [])
    = Ok (reflect.TStruct "main" "inner" "struct {}" [])
  ∧ getTypeUUID examples.inner
    = getTypeUUID (reflect.TStruct "main" "inner" "struct {}" [])
  ∧ generateSchemaFromReqStruct noFloat (Some (reflect.TPtr examples.inner)) ∅
    = (Ok (mkInputSchema Object (Properties examples.innerSchema)
                         (Required examples.innerSchema)),
       pkg.Store ∅ "main.inner"
         (mkInputSchema Object (Properties examples.innerSchema)
                        (Required examples.innerSchema)))
  ∧ generateSchemaFromReqStruct noFloat
      (Some (reflect.TStruct "main" "inner" "struct {}" []))
      (pkg.Store ∅ "main.inner"
         (mkInputSchema Object (Properties examples.innerSchema)
                        (Required examples.innerSchema)))
    = (Ok (mkInputSchema Object (Properties examples.innerSchema)
                         (Required examples.innerSchema)),
       pkg.Store ∅ "main.inner"
         (mkInputSchema Object (Properties examples.innerSchema)
                        (Required examples.innerSchema))).
Proof.
  assert (generateSchemaFromReqStruct noFloat (Some (reflect.TPtr examples.inner)) ∅
          = (Ok (mkInputSchema Object (Properties examples.innerSchema)
                               (Required examples.innerSchema)),
             pkg.Store ∅ "main.inner"
               (mkInputSchema Object (Properties examples.innerSchema)
                              (Required examples.innerSchema))))
    as Hfirst by (vm_compute; reflexivity).
  split; [reflexivity|]. split; [reflexivity|]. split; [reflexivity|].
  split; [exact Hfirst|].
  exact (X12_cache_hit_by_identity noFloat (reflect.TPtr examples.inner)
           (reflect.TStruct "main" "inner" "struct {}" [])
           examples.inner (reflect.TStruct "main" "inner" "struct {}" [])
           ∅ _ _ eq_refl eq_refl eq_refl Hfirst).
Defined.

Lemma X13_returned_schemas_rooted_witness :
  map_Forall (λ _, rooted) (∅ : gmap string InputSchema)
  ∧ (generateSchemaFromReqStruct noFloat (Some (reflect.TPtr examples.inner))
       (afterCalls noFloat [Some examples.inner; Some examples.Bad] ∅)).1
    = Ok (mkInputSchema Object (Properties examples.innerSchema)
                        (Required examples.innerSchema))
  ∧ rooted (mkInputSchema Object (Properties examples.innerSchema)
                          (Required examples.innerSchema)).
Proof.
  assert (map_Forall (λ _, rooted) (∅ : gmap string InputSchema)) as Hcache
      by apply map_Forall_empty.
  assert ((generateSchemaFromReqStruct noFloat (Some (reflect.TPtr examples.inner))
             (afterCalls noFloat [Some examples.inner; Some examples.Bad] ∅)).1
          = Ok (mkInputSchema Object (Properties examples.innerSchema)
                              (Required examples.innerSchema)))
    as Hcall by (vm_compute; reflexivity).
  split; [exact Hcache|]. split; [exact Hcall|].
  exact (X13_returned_schemas_rooted noFloat _ _ _ _ Hcache Hcall).
Defined.

Lemma X14_name_from_naming_tag_witness :
  namingTag (examples.exported "B" (reflect.TInt reflect.W) [("json", "b,omitempty")])
  = ("b" ++ ",omitempty")%string
  ∧ fieldName
      (examples.exported "B" (reflect.TInt reflect.W) [("json", "b,omitempty")])
      "b,omitempty"
    = ("b", false).
Proof.
  split; [reflexivity|].
  exact (proj1 (X14_name_from_naming_tag
                  (examples.exported "B" (reflect.TInt reflect.W)
                     [("json", "b,omitempty")])) "b" eq_refl).
Defined.

Lemma X15_enum_length_witness :
  "1, 2,3" ≠ ""
  ∧ enumTag noFloat (reflect.TInt reflect.W8) "1, 2,3" (newProperty Integer)
    = Ok (setEnum (newProperty Integer) [AInt 1; AInt 2; AInt 3])
  ∧ ∃ values,
      Enum (setEnum (newProperty Integer) [AInt 1; AInt 2; AInt 3]) = Some values
      ∧ length values = S (commas "1, 2,3").
Proof.
  split; [done|]. split; [reflexivity|].
  exact (X15_enum_length noFloat (reflect.TInt reflect.W8) "1, 2,3"
           (newProperty Integer) _ ltac:(done) eq_refl).
Defined.

(** ** The required list, field by field *)

Section required_list.

Variable ParseFloat : string → option strconv.float64.

(** A first loop that goes through has reflected the type of every
    explicit field and read a well-formed [required] tag on it. *)
Lemma fieldsLoop_all_ok fields :
  ∀ properties requiredFields anonymousFields properties' requiredFields' anonymousFields',
    fieldsLoop ParseFloat fields properties requiredFields anonymousFields
    = Ok (properties', requiredFields', anonymousFields') →
    ∀ rf, rf ∈ fields → explicit (field rf) = true →
          (∃ item, byType rf = Ok item) ∧ is_Some (requiredness (field rf)).
Proof.
  induction fields as [|rf fields IH]; intros properties requiredFields
    anonymousFields properties' requiredFields' anonymousFields';
    [by intros _ rf' ?%elem_of_nil|].
  cbn [fieldsLoop]. unfold explicit.
  destruct (reflect.Anonymous (field rf)) eqn:Hanon.
  { intros Hrest rf' [->|Hin]%elem_of_cons; [by rewrite Hanon|].
    by eapply IH. }
  destruct (reflect.IsExported (field rf)) eqn:Hexp; cbn [negb].
  2:{ intros Hrest rf' [->|Hin]%elem_of_cons; [by rewrite Hanon, Hexp|].
      by eapply IH. }
  destruct (String.eqb _ "-") eqn:Hjson.
  { intros Hrest rf' [->|Hin]%elem_of_cons; [by rewrite Hanon, Hexp, Hjson|].
    by eapply IH. }
  destruct (reflectField _ _ _ _ _) as [[p r]| |] eqn:Hfield; [|done..].
  cbn [mbind result_bind].
  intros Hrest rf' [->|Hin]%elem_of_cons; [|by eapply IH].
  intros _.
  apply reflectField_Ok in Hfield
    as (item & required & item1 & item2 & Hitem & Hreq & _).
  split; [by exists item|].
  rewrite fieldName_externalName in Hreq. cbn [fst snd] in Hreq.
  rewrite requiredTag_requiredness in Hreq.
  by destruct (requiredness (field rf)).
Qed.

(** A second loop that goes through has reflected the type of every
    embedded field as an object. *)
Lemma embedAll_all_ok embedded :
  ∀ state state',
    embedAll ParseFloat embedded state = Ok state' →
    ∀ f, f ∈ embedded →
         ∃ object, reflectSchemaByObject ParseFloat (reflect.Type_ f) = Ok object.
Proof.
  induction embedded as [|f rest IH]; intros state state';
    [by intros _ f ?%elem_of_nil|].
  cbn [embedAll]. unfold embedOne.
  destruct (reflectSchemaByObject ParseFloat (reflect.Type_ f)) as [object| |] eqn:Hf;
    [|done..].
  cbn [mbind result_bind].
  destruct (mergeEmbedded _ _) as [merged| |]; [|done..].
  cbn [mbind result_bind].
  intros Hrest f' [->|Hin]%elem_of_cons; [by exists object|by eapply IH].
Qed.

(** The required list of the object derived for a struct. *)
Lemma struct_required_list p n s fields object :
  reflectSchemaByObject ParseFloat (reflect.TStruct p n s fields) = Ok object →
  Required object
  = Some (List.flat_map requiredEntry fields
          ++ List.flat_map (embeddedRequired ParseFloat)
               (List.filter reflect.Anonymous fields)).
Proof.
  rewrite reflectSchemaByObject_Struct. unfold objectOf.
  destruct (fieldsLoop _ _ _ _ _) as [[[p0 r0] a0]| |] eqn:Hfirst; [|done..].
  cbn [mbind result_bind].
  pose proof (fieldsLoop_anonymous _ _ _ _ _ _ _ Hfirst) as ->.
  rewrite (reflected_filter ParseFloat reflect.Anonymous), anonymousLoop_embedAll.
  destruct (embedAll _ _ _) as [[p1 r1]| |] eqn:Hsecond; [|done..].
  cbn [mbind result_bind]. intros [= <-].
  apply fieldsLoop_names in Hfirst as [_ ->].
  apply embedAll_names in Hsecond as [_ ->]. cbn [app Required].
  f_equal. f_equal. unfold reflected.
  by rewrite List.flat_map_concat_map, List.map_map, <- List.flat_map_concat_map.
Qed.

(** C4 (amended). What an explicit field adds to the required list is
    computed from its tags: its name when it is required, nothing when
    it is not, where it is required by default, not required when its
    naming tag ends in [,omitempty], and as the boolean literal of its
    [required] tag says when that tag is not empty.  The required list of
    the object derived for a struct is exactly these entries, in
    declaration order, followed by the required lists of the embedded
    fields' objects; so the name of an explicit field is in the list
    exactly when the field is required, provided no other field and no
    embedded type adds the same name.  A [required] tag that is not empty
    and not a boolean literal, on an explicit field reached by the first
    loop with its type reflected, makes the derivation fail with the
    invalid-required error; a derivation that succeeds has met none. *)
Theorem C4_required_entries :
  (∀ p n s pre f post properties requiredFields anonymousFields item,
     explicit f = true →
     fieldsLoop ParseFloat (reflected ParseFloat pre) ∅ [] []
     = Ok (properties, requiredFields, anonymousFields) →
     reflectSchemaByType ParseFloat (reflect.Type_ f) = Ok item →
     requiredness f = None →
     reflectSchemaByObject ParseFloat (reflect.TStruct p n s (pre ++ f :: post))
     = Err (InvalidRequired (externalName f) (reflect.Get (reflect.Tag f) "required")))
  ∧ (∀ p n s fields object,
       reflectSchemaByObject ParseFloat (reflect.TStruct p n s fields) = Ok object →
       ∃ r,
         Required object = Some r
         ∧ r = List.flat_map requiredEntry fields
               ++ List.flat_map (embeddedRequired ParseFloat)
                    (List.filter reflect.Anonymous fields)
         ∧ (∀ f, f ∈ fields → explicit f = true → is_Some (requiredness f))
         ∧ (∀ f,
              f ∈ fields → explicit f = true →
              (∀ g, g ∈ fields → externalName f ∈ requiredEntry g → g = f) →
              externalName f
              ∉ List.flat_map (embeddedRequired ParseFloat)
                  (List.filter reflect.Anonymous fields) →
              (externalName f ∈ r ↔ requiredness f = Some true))).
Proof.
  split.
  - intros p n s pre f post properties requiredFields anonymousFields item
      Hexplicit Hpre Hitem Hreq.
    eapply reflectSchemaByObject_field_error; [done..|].
    unfold reflectField. cbn [field byType].
    rewrite fieldName_externalName, Hitem. cbn [mbind result_bind].
    by rewrite requiredTag_requiredness, Hreq.
  - intros p n s fields object Hobject.
    pose proof (struct_required_list _ _ _ _ _ Hobject) as Hrequired.
    eexists. split; [exact Hrequired|]. split; [done|]. split.
    + intros f Hf Hexplicit.
      rewrite reflectSchemaByObject_Struct in Hobject. unfold objectOf in Hobject.
      destruct (fieldsLoop _ _ _ _ _) as [[[p0 r0] a0]| |] eqn:Hfirst; [|done..].
      eapply (fieldsLoop_all_ok _ _ _ _ _ _ _ Hfirst
                (mkReflected f (reflectSchemaByType ParseFloat (reflect.Type_ f))
                   (reflectSchemaByObject ParseFloat (reflect.Type_ f)))); [|done].
      apply list_elem_of_fmap. by exists f.
    + intros f Hf Hexplicit Hunique Hembedded.
      rewrite elem_of_app. split.
      * intros [Hin|Hin]; [|done].
        apply list_elem_of_In, List.in_flat_map in Hin as (g & Hg & Hin).
        apply list_elem_of_In in Hg, Hin.
        pose proof (Hunique g Hg Hin) as ->.
        unfold requiredEntry in Hin. rewrite Hexplicit in Hin.
        destruct (requiredness f) as [[]|]; [done|by apply elem_of_nil in Hin..].
      * intros Hreq. left. apply list_elem_of_In, List.in_flat_map.
        exists f. split; [by apply list_elem_of_In|].
        unfold requiredEntry. rewrite Hexplicit, Hreq. by left.
Qed.

End required_list.

(** C4, as stated, fails when two explicit fields share a name: the
    second field of this struct is explicit and not required (its naming
    tag ends in [,omitempty]), and its name is in the required list, put
    there by the first. *)
Lemma C4_counterexample :
  explicit (examples.exported "B" (reflect.TInt reflect.W) [("json", "x,omitempty")])
  = true
  ∧ requiredness
      (examples.exported "B" (reflect.TInt reflect.W) [("json", "x,omitempty")])
    = Some false
  ∧ externalName
      (examples.exported "B" (reflect.TInt reflect.W) [("json", "x,omitempty")])
    = "x"
  ∧ reflectSchemaByObject noFloat
      (reflect.TStruct "main" "Dup" "main.Dup"
         [examples.exported "A" reflect.TString [("json", "x")];
          examples.exported "B" (reflect.TInt reflect.W) [("json", "x,omitempty")]])
    = Ok (mkProperty ObjectT "" None (Some (<["x" := newProperty Integer]> ∅))
            (Some ["x"]) None Nil).
Proof.
  split; [reflexivity|]. split; [reflexivity|]. split; [reflexivity|].
  vm_compute. reflexivity.
Qed.

Lemma C4_required_entries_witness :
  reflectSchemaByObject noFloat examples.Level
  = Ok (mkProperty ObjectT "" None
          (Some (<["L" := mkProperty Integer "" None None None
                            (Some [AInt 1; AInt 2; AInt 3]) (AInt 2)]> ∅))
          (Some []) None Nil)
  ∧ requiredness (examples.exported "L" (reflect.TInt reflect.W8)
                    [("enum", "1, 2,3"); ("default", "2"); ("required", "false")])
    = Some false
  ∧ ∃ r,
      Some [] = Some r
      ∧ r = List.flat_map requiredEntry
              [examples.exported "L" (reflect.TInt reflect.W8)
                 [("enum", "1, 2,3"); ("default", "2"); ("required", "false")]]
            ++ List.flat_map (embeddedRequired noFloat)
                 (List.filter reflect.Anonymous
                    [examples.exported "L" (reflect.TInt reflect.W8)
                       [("enum", "1, 2,3"); ("default", "2"); ("required", "false")]])
      ∧ (∀ f,
           f ∈ [examples.exported "L" (reflect.TInt reflect.W8)
                  [("enum", "1, 2,3"); ("default", "2"); ("required", "false")]] →
           explicit f = true → is_Some (requiredness f))
      ∧ (∀ f,
           f ∈ [examples.exported "L" (reflect.TInt reflect.W8)
                  [("enum", "1, 2,3"); ("default", "2"); ("required", "false")]] →
           explicit f = true →
           (∀ g,
              g ∈ [examples.exported "L" (reflect.TInt reflect.W8)
                     [("enum", "1, 2,3"); ("default", "2"); ("required", "false")]] →
              externalName f ∈ requiredEntry g → g = f) →
           externalName f
           ∉ List.flat_map (embeddedRequired noFloat)
               (List.filter reflect.Anonymous
                  [examples.exported "L" (reflect.TInt reflect.W8)
                     [("enum", "1, 2,3"); ("default", "2"); ("required", "false")]]) →
           (externalName f ∈ r ↔ requiredness f = Some true)).
Proof.
  assert (reflectSchemaByObject noFloat examples.Level
          = Ok (mkProperty ObjectT "" None
                  (Some (<["L" := mkProperty Integer "" None None None
                                    (Some [AInt 1; AInt 2; AInt 3]) (AInt 2)]> ∅))
                  (Some []) None Nil)) as Hobject by (vm_compute; reflexivity).
  split; [exact Hobject|]. split; [reflexivity|].
  exact (proj2 (C4_required_entries noFloat) "main" "Level" "main.Level" _ _ Hobject).
Defined.

(** ** Failures, from the step that fails to the caller and the cache *)

Section failures.

Variable ParseFloat : string → option strconv.float64.

(** An error of the reflection of an embedded field's type, met once the
    first loop and the embedded fields before it have gone through, is
    the error of the struct. *)
Lemma reflectSchemaByObject_embedded_error p n s fields properties0 required0
      anonymous0 pre f post state e :
  fieldsLoop ParseFloat
    (reflected ParseFloat (List.filter (λ f, negb (reflect.Anonymous f)) fields))
    ∅ [] [] = Ok (properties0, required0, anonymous0) →
  List.filter reflect.Anonymous fields = pre ++ f :: post →
  embedAll ParseFloat pre (properties0, required0) = Ok state →
  reflectSchemaByObject ParseFloat (reflect.Type_ f) = Err e →
  reflectSchemaByObject ParseFloat (reflect.TStruct p n s fields) = Err e.
Proof.
  intros Hfirst Hanon Hpre Hf.
  rewrite reflectSchemaByObject_Struct, objectOf_passes, Hfirst.
  cbn [mbind result_bind]. rewrite Hanon, embedAll_app, Hpre.
  cbn [mbind result_bind embedAll]. unfold embedOne. by rewrite Hf.
Qed.

(** A struct that reflects to a schema has had every one of its
    recursive calls return a schema. *)
Lemma reflectSchemaByObject_all_ok p n s fields object :
  reflectSchemaByObject ParseFloat (reflect.TStruct p n s fields) = Ok object →
  ∀ f, f ∈ fields →
       (explicit f = true →
        ∃ item, reflectSchemaByType ParseFloat (reflect.Type_ f) = Ok item)
       ∧ (reflect.Anonymous f = true →
          ∃ embedded,
            reflectSchemaByObject ParseFloat (reflect.Type_ f) = Ok embedded).
Proof.
  rewrite reflectSchemaByObject_Struct. unfold objectOf.
  destruct (fieldsLoop _ _ _ _ _) as [[[p0 r0] a0]| |] eqn:Hfirst; [|done..].
  cbn [mbind result_bind].
  pose proof (fieldsLoop_anonymous _ _ _ _ _ _ _ Hfirst) as ->.
  rewrite (reflected_filter ParseFloat reflect.Anonymous), anonymousLoop_embedAll.
  destruct (embedAll _ _ _) as [[p1 r1]| |] eqn:Hsecond; [|done..].
  intros _ f Hf. split.
  - intros Hexplicit.
    apply (fieldsLoop_all_ok _ _ _ _ _ _ _ _ Hfirst
             (mkReflected f (reflectSchemaByType ParseFloat (reflect.Type_ f))
                (reflectSchemaByObject ParseFloat (reflect.Type_ f)))); [|done].
    apply list_elem_of_fmap. by exists f.
  - intros Hanon. apply (embedAll_all_ok _ _ _ _ Hsecond).
    apply list_elem_of_In, List.filter_In. by rewrite <- list_elem_of_In.
Qed.

(** C9. A call that does not return a schema leaves the cache as it
    was.  When the type resolves to a struct whose schema is not cached
    and whose reflection fails, the call returns the error of the
    reflection with no schema, the schema of the type is still not cached,
    and a second call on the cache the first one left fails again and
    leaves that cache too.  Inside the reflection every failing step hands
    its error to its caller: an element type to the array, slice or
    pointer type; the type, the [required] tag, the [enum] tag and the
    [default] tag of an explicit field to the body of the first loop; that
    body to the struct; the type of an embedded field to the struct.  A
    struct reflects to a schema only when the types of all its explicit
    and embedded fields do. *)
Theorem C9_failures_not_cached :
  (∀ v schemaCache,
     (∀ schema, (generateSchemaFromReqStruct ParseFloat v schemaCache).1 ≠ Ok schema) →
     (generateSchemaFromReqStruct ParseFloat v schemaCache).2 = schemaCache)
  ∧ (∀ t0 t schemaCache e,
       resolveStruct t0 = Ok t →
       pkg.Load schemaCache (getTypeUUID t) = None →
       reflectSchemaByObject ParseFloat t = Err e →
       generateSchemaFromReqStruct ParseFloat (Some t0) schemaCache
       = (Err e, schemaCache)
       ∧ pkg.Load (generateSchemaFromReqStruct ParseFloat (Some t0) schemaCache).2
                  (getTypeUUID t) = None
       ∧ (∀ schema,
            (generateSchemaFromReqStruct ParseFloat (Some t0)
               (generateSchemaFromReqStruct ParseFloat (Some t0) schemaCache).2).1
            ≠ Ok schema)
       ∧ (generateSchemaFromReqStruct ParseFloat (Some t0)
            (generateSchemaFromReqStruct ParseFloat (Some t0) schemaCache).2).2
         = schemaCache)
  ∧ (∀ elem e,
       reflectSchemaByType ParseFloat elem = Err e →
       reflectSchemaByType ParseFloat (reflect.TSlice elem) = Err e
       ∧ reflectSchemaByType ParseFloat (reflect.TPtr elem) = Err e
       ∧ ∀ len, reflectSchemaByType ParseFloat (reflect.TArray len elem) = Err e)
  ∧ (∀ rf jsonTag properties requiredFields e,
       byType rf = Err e →
       reflectField ParseFloat rf jsonTag properties requiredFields = Err e)
  ∧ (∀ rf jsonTag properties requiredFields item e,
       byType rf = Ok item →
       requiredTag (fieldName (field rf) jsonTag).1
                   (reflect.Get (reflect.Tag (field rf)) "required")
                   (fieldName (field rf) jsonTag).2 = Err e →
       reflectField ParseFloat rf jsonTag properties requiredFields = Err e)
  ∧ (∀ rf jsonTag properties requiredFields item required e,
       byType rf = Ok item →
       requiredTag (fieldName (field rf) jsonTag).1
                   (reflect.Get (reflect.Tag (field rf)) "required")
                   (fieldName (field rf) jsonTag).2 = Ok required →
       enumTag ParseFloat (reflect.Type_ (field rf))
               (reflect.Get (reflect.Tag (field rf)) "enum")
               (if String.eqb (reflect.Get (reflect.Tag (field rf)) "description") ""
                then item
                else setDescription item
                       (reflect.Get (reflect.Tag (field rf)) "description"))
       = Err e →
       reflectField ParseFloat rf jsonTag properties requiredFields = Err e)
  ∧ (∀ rf jsonTag properties requiredFields item required item1 e,
       byType rf = Ok item →
       requiredTag (fieldName (field rf) jsonTag).1
                   (reflect.Get (reflect.Tag (field rf)) "required")
                   (fieldName (field rf) jsonTag).2 = Ok required →
       enumTag ParseFloat (reflect.Type_ (field rf))
               (reflect.Get (reflect.Tag (field rf)) "enum")
               (if String.eqb (reflect.Get (reflect.Tag (field rf)) "description") ""
                then item
                else setDescription item
                       (reflect.Get (reflect.Tag (field rf)) "description"))
       = Ok item1 →
       defaultTag ParseFloat (reflect.Type_ (field rf))
                  (reflect.Get (reflect.Tag (field rf)) "default") item1 = Err e →
       reflectField ParseFloat rf jsonTag properties requiredFields = Err e)
  ∧ (∀ p n s pre f post properties requiredFields anonymousFields e,
       explicit f = true →
       fieldsLoop ParseFloat (reflected ParseFloat pre) ∅ [] []
       = Ok (properties, requiredFields, anonymousFields) →
       reflectField ParseFloat
         (mkReflected f (reflectSchemaByType ParseFloat (reflect.Type_ f))
                      (reflectSchemaByObject ParseFloat (reflect.Type_ f)))
         (reflect.Get (reflect.Tag f) "json") properties requiredFields = Err e →
       reflectSchemaByObject ParseFloat (reflect.TStruct p n s (pre ++ f :: post))
       = Err e
       ∧ reflectSchemaByType ParseFloat (reflect.TStruct p n s (pre ++ f :: post))
         = Err e)
  ∧ (∀ p n s fields properties0 required0 anonymous0 pre f post state e,
       fieldsLoop ParseFloat
         (reflected ParseFloat
            (List.filter (λ f, negb (reflect.Anonymous f)) fields))
         ∅ [] [] = Ok (properties0, required0, anonymous0) →
       List.filter reflect.Anonymous fields = pre ++ f :: post →
       embedAll ParseFloat pre (properties0, required0) = Ok state →
       reflectSchemaByObject ParseFloat (reflect.Type_ f) = Err e →
       reflectSchemaByObject ParseFloat (reflect.TStruct p n s fields) = Err e
       ∧ reflectSchemaByType ParseFloat (reflect.TStruct p n s fields) = Err e)
  ∧ (∀ p n s fields object,
       reflectSchemaByObject ParseFloat (reflect.TStruct p n s fields) = Ok object →
       ∀ f, f ∈ fields →
            (explicit f = true →
             ∃ item, reflectSchemaByType ParseFloat (reflect.Type_ f) = Ok item)
            ∧ (reflect.Anonymous f = true →
               ∃ embedded,
                 reflectSchemaByObject ParseFloat (reflect.Type_ f) = Ok embedded)).
Proof.
  split_and!.
  - intros v schemaCache. unfold generateSchemaFromReqStruct.
    destruct v as [t0|]; [|done].
    destruct (resolveStruct t0) as [t| |]; [|done..].
    destruct (pkg.Load _ _) as [schema|]; [done|].
    destruct (reflectSchemaByObject _ _) as [property| |]; [|done..].
    cbn. intros Hfail. by destruct (Hfail _ eq_refl).
  - intros t0 t schemaCache e Hresolve Hmiss Hreflect.
    assert (generateSchemaFromReqStruct ParseFloat (Some t0) schemaCache
            = (Err e, schemaCache)) as Hcall.
    { unfold generateSchemaFromReqStruct. by rewrite Hresolve, Hmiss, Hreflect. }
    rewrite Hcall. cbn [snd]. rewrite Hcall. by split_and!.
  - intros elem e Helem. cbn [reflectSchemaByType]. by rewrite Helem.
  - intros rf jsonTag properties requiredFields e Hrf.
    unfold reflectField. destruct (fieldName _ _). by rewrite Hrf.
  - intros rf jsonTag properties requiredFields item e Hitem Hreq.
    unfold reflectField. destruct (fieldName _ _) as [name computed].
    cbn [fst snd] in Hreq. rewrite Hitem. cbn [mbind result_bind].
    by rewrite Hreq.
  - intros rf jsonTag properties requiredFields item required e Hitem Hreq Henum.
    rewrite (reflectField_reflected ParseFloat _ _ _ _ _ _ Hitem Hreq).
    cbv zeta. by rewrite Henum.
  - intros rf jsonTag properties requiredFields item required item1 e Hitem Hreq
      Henum Hdefault.
    rewrite (reflectField_reflected ParseFloat _ _ _ _ _ _ Hitem Hreq).
    cbv zeta. rewrite Henum. cbn [mbind result_bind]. by rewrite Hdefault.
  - intros p n s pre f post properties requiredFields anonymousFields e
      Hexplicit Hpre Hfield.
    assert (reflectSchemaByObject ParseFloat (reflect.TStruct p n s (pre ++ f :: post))
            = Err e) as Hobject
        by (by eapply reflectSchemaByObject_field_error).
    split; [done|]. by rewrite reflectSchemaByType_Struct, Hobject.
  - intros p n s fields properties0 required0 anonymous0 pre f post state e
      Hfirst Hanon Hpre Hf.
    assert (reflectSchemaByObject ParseFloat (reflect.TStruct p n s fields) = Err e)
      as Hobject by (by eapply reflectSchemaByObject_embedded_error).
    split; [done|]. by rewrite reflectSchemaByType_Struct, Hobject.
  - apply reflectSchemaByObject_all_ok.
Qed.

End failures.

Lemma C9_failures_not_cached_witness :
  (resolveStruct (reflect.TPtr examples.Bad) = Ok examples.Bad
   ∧ pkg.Load (∅ : pkg.SyncMap InputSchema) (getTypeUUID examples.Bad) = None
   ∧ reflectSchemaByObject noFloat examples.Bad = Err (UnsupportedKind reflect.Func)
   ∧ generateSchemaFromReqStruct noFloat (Some (reflect.TPtr examples.Bad)) ∅
     = (Err (UnsupportedKind reflect.Func), ∅)
   ∧ pkg.Load
       (generateSchemaFromReqStruct noFloat (Some (reflect.TPtr examples.Bad)) ∅).2
       (getTypeUUID examples.Bad) = None
   ∧ (∀ schema,
        (generateSchemaFromReqStruct noFloat (Some (reflect.TPtr examples.Bad))
           (generateSchemaFromReqStruct noFloat (Some (reflect.TPtr examples.Bad))
              ∅).2).1
        ≠ Ok schema)
   ∧ (generateSchemaFromReqStruct noFloat (Some (reflect.TPtr examples.Bad))
        (generateSchemaFromReqStruct noFloat (Some (reflect.TPtr examples.Bad)) ∅).2).2
     = ∅)
  ∧ (fieldsLoop noFloat
       (reflected noFloat
          (List.filter (λ f, negb (reflect.Anonymous f))
             [examples.exported "A" reflect.TString [];
              reflect.mkStructField "Bad" "" examples.Bad [] true]))
       ∅ [] [] = Ok (<["A" := newProperty String]> ∅, ["A"], [])
     ∧ List.filter reflect.Anonymous
         [examples.exported "A" reflect.TString [];
          reflect.mkStructField "Bad" "" examples.Bad [] true]
       = [] ++ reflect.mkStructField "Bad" "" examples.Bad [] true :: []
     ∧ embedAll noFloat [] (<["A" := newProperty String]> ∅, ["A"])
       = Ok (<["A" := newProperty String]> ∅, ["A"])
     ∧ reflectSchemaByObject noFloat examples.Bad = Err (UnsupportedKind reflect.Func)
     ∧ reflectSchemaByObject noFloat
         (reflect.TStruct "main" "P" "main.P"
            [examples.exported "A" reflect.TString [];
             reflect.mkStructField "Bad" "" examples.Bad [] true])
       = Err (UnsupportedKind reflect.Func)
     ∧ reflectSchemaByType noFloat
         (reflect.TStruct "main" "P" "main.P"
            [examples.exported "A" reflect.TString [];
             reflect.mkStructField "Bad" "" examples.Bad [] true])
       = Err (UnsupportedKind reflect.Func)).
Proof.
  destruct (C9_failures_not_cached noFloat)
    as (_ & Hcall & _ & _ & _ & _ & _ & _ & Hembedded & _).
  assert (fieldsLoop noFloat
            (reflected noFloat
               (List.filter (λ f, negb (reflect.Anonymous f))
                  [examples.exported "A" reflect.TString [];
                   reflect.mkStructField "Bad" "" examples.Bad [] true]))
            ∅ [] [] = Ok (<["A" := newProperty String]> ∅, ["A"], []))
    as Hfirst by (vm_compute; reflexivity).
  split.
  - split; [reflexivity|]. split; [reflexivity|]. split; [reflexivity|].
    exact (Hcall (reflect.TPtr examples.Bad) examples.Bad ∅
             (UnsupportedKind reflect.Func) eq_refl eq_refl eq_refl).
  - split; [exact Hfirst|]. split; [reflexivity|]. split; [reflexivity|].
    split; [reflexivity|].
    exact (Hembedded "main" "P" "main.P"
             [examples.exported "A" reflect.TString [];
              reflect.mkStructField "Bad" "" examples.Bad [] true]
             (<["A" := newProperty String]> ∅) ["A"] [] []
             (reflect.mkStructField "Bad" "" examples.Bad [] true) []
             (<["A" := newProperty String]> ∅, ["A"])
             (UnsupportedKind reflect.Func) Hfirst eq_refl eq_refl eq_refl).
Defined.

(** An embedded struct whose reflection fails fails the struct that
    embeds it, after the explicit field before it has been reflected; and
    so does a malformed [default] literal. *)
Example embedded_error :
  reflectSchemaByObject noFloat
    (reflect.TStruct "main" "P" "main.P"
       [examples.exported "A" reflect.TString [];
        reflect.mkStructField "Bad" "" examples.Bad [] true])
  = Err (UnsupportedKind reflect.Func).
Proof. vm_compute. reflexivity. Qed.

Example default_error :
  reflectSchemaByObject noFloat
    (reflect.TStruct "main" "D" "main.D"
       [examples.exported "N" (reflect.TInt reflect.W) [("default", "five")]])
  = Err (DefaultIncompatible "five" integer_type (reflect.TInt reflect.W)).
Proof. vm_compute. reflexivity. Qed.
